(** * Master-schedule PDF parser: a shallow embedding of
      [backend/python/pdf_parser/parser.py] and the properties of its
      record type, column calibration, record detection and conflict
      extraction.

    Conventions of the embedding.
    - Python [str] is [string] (a sequence of 8-bit characters); the
      character classes of [lower], [title], [strip] and of the regular
      expressions are the ASCII ones.
    - Python [int] is [Z]; the page coordinates ([x0], [top]) are exact
      rationals [Q], so [/] is exact division and rounding is not modelled.
    - A [dict] whose iteration order is observable is an association list
      in insertion order; a [set] is a [gset].
    - A function that can raise returns [result]: [Ok v] or [Raise e]. *)

From Stdlib Require Import ZArith QArith Qabs String Ascii List Sorted Permutation Lia Lqa.
From stdpp Require Import base decidable option list gmap strings.

Local Open Scope string_scope.
Local Open Scope list_scope.
Local Open Scope Z_scope.

(** ** Exceptions and the error monad *)

(** The check that raised a [ValidationError]; it stands for the message. *)
Inductive validation_error : Set :=
  | InvalidClassIdFormat      (* "Invalid class identifier format: ..." *)
  | InvalidGradeLevel         (* "Invalid grade level: ..." *)
  | InvalidPeriodNumber       (* "Invalid period number: ..." *)
  | InvalidGradeInMultiple    (* "Invalid grade ... in multiple-grade class ..." *)
  | InvalidGradeNumber        (* "Invalid grade number ... in class ..." *)
  | GradeLevelMismatch        (* "Grade level ... doesn't match class identifier format ..." *)
  | HasNoConflicts            (* "Class ... has no conflicts" *)
  | TooManyConflicts          (* "Class ... has ... conflicts on ..., maximum is 8" *)
  | DuplicateClassIdentifier. (* "Duplicate class identifier: ..." *)

Inductive exn : Set :=
  | ValidationError (why : validation_error)
  | KeyError (key : string)
  | IndexError.

Inductive result (A : Type) : Type :=
  | Ok (v : A)
  | Raise (e : exn).
Arguments Ok {A} v.
Arguments Raise {A} e.

#[global] Instance result_ret : MRet result := fun A v => Ok v.
#[global] Instance result_bind : MBind result := fun A B k m =>
  match m with
  | Ok v => k v
  | Raise e => Raise e
  end.

(** [for x in xs: body] over a threaded state, stopping at the first raise. *)
Fixpoint for_each {A S : Type} (body : S -> A -> result S) (xs : list A) (s : S)
  : result S :=
  match xs with
  | [] => Ok s
  | x :: xs' => s' ← body s x; for_each body xs' s'
  end.

Definition is_validation_error {A : Type} (r : result A) : Prop :=
  match r with
  | Raise (ValidationError _) => True
  | _ => False
  end.

(** ** Strings *)

Definition is_digit (c : ascii) : bool :=
  let n := nat_of_ascii c in (48 <=? n)%nat && (n <=? 57)%nat.
Definition is_upper (c : ascii) : bool :=
  let n := nat_of_ascii c in (65 <=? n)%nat && (n <=? 90)%nat.
Definition is_lower (c : ascii) : bool :=
  let n := nat_of_ascii c in (97 <=? n)%nat && (n <=? 122)%nat.
(** The characters [str.strip()] removes: tab, LF, VT, FF, CR, FS, GS, RS,
    US and space. *)
Definition is_space (c : ascii) : bool :=
  let n := nat_of_ascii c in
  ((9 <=? n)%nat && (n <=? 13)%nat) || ((28 <=? n)%nat && (n <=? 32)%nat).

Definition to_lower (c : ascii) : ascii :=
  if is_upper c then ascii_of_nat (nat_of_ascii c + 32) else c.
Definition to_upper (c : ascii) : ascii :=
  if is_lower c then ascii_of_nat (nat_of_ascii c - 32) else c.

(** [s.lower()] *)
Fixpoint lower (s : string) : string :=
  match s with
  | EmptyString => EmptyString
  | String c s' => String (to_lower c) (lower s')
  end.

(** [s.title()]: a cased character is upper-cased after an uncased one and
    lower-cased after a cased one. *)
Fixpoint title_from (previous_is_cased : bool) (s : string) : string :=
  match s with
  | EmptyString => EmptyString
  | String c s' =>
      if is_lower c || is_upper c
      then String (if previous_is_cased then to_lower c else to_upper c)
                  (title_from true s')
      else String c (title_from false s')
  end.
Definition title (s : string) : string := title_from false s.

(** [s.startswith(p)] *)
Definition startswith (s p : string) : bool := String.prefix p s.

(** [needle in hay] *)
Fixpoint contains (needle hay : string) : bool :=
  String.prefix needle hay ||
  match hay with
  | EmptyString => false
  | String _ hay' => contains needle hay'
  end.

Fixpoint lstrip (s : string) : string :=
  match s with
  | String c s' => if is_space c then lstrip s' else s
  | EmptyString => EmptyString
  end.
Fixpoint rstrip (s : string) : string :=
  match s with
  | EmptyString => EmptyString
  | String c s' =>
      match rstrip s' with
      | EmptyString => if is_space c then EmptyString else String c EmptyString
      | r => String c r
      end
  end.
(** [s.strip()] *)
Definition strip (s : string) : string := rstrip (lstrip s).

(** [s.split(sep)] for a one-character separator: never empty. *)
Fixpoint split (sep : ascii) (s : string) : list string :=
  match s with
  | EmptyString => [EmptyString]
  | String c s' =>
      if Ascii.eqb c sep then EmptyString :: split sep s'
      else match split sep s' with
           | hd :: tl => String c hd :: tl
           | [] => [String c EmptyString]
           end
  end.

(** Where [$] matches: at the end, or before a final newline. *)
Definition at_end (s : string) : bool :=
  match s with
  | EmptyString => true
  | String c EmptyString => Ascii.eqb c "010"%char
  | _ => false
  end.

(** [\d{3}$] *)
Definition three_digits_end (s : string) : bool :=
  match s with
  | String a (String b (String c rest)) =>
      is_digit a && is_digit b && is_digit c && at_end rest
  | _ => false
  end.

(** [[K\d]] *)
Definition is_K_or_digit (c : ascii) : bool := Ascii.eqb c "K"%char || is_digit c.

(** [int(s)] for a one-digit string. *)
Definition digit_value (c : ascii) : Z := Z.of_nat (nat_of_ascii c) - 48.

(** ** Sorting *)

(** Python's sort is stable: elements that compare equal keep their order.
    [sort_by le] is the stable insertion sort for the order [le]. *)
Section sorting.
Context {A : Type} (le : A -> A -> bool).

Fixpoint insert_by (x : A) (l : list A) : list A :=
  match l with
  | [] => [x]
  | y :: l' => if le x y then x :: y :: l' else y :: insert_by x l'
  end.

Fixpoint sort_by (l : list A) : list A :=
  match l with
  | [] => []
  | x :: l' => insert_by x (sort_by l')
  end.
End sorting.

(** ** Insertion-ordered dictionaries *)

Section dict.
Context {V : Type}.

(** [d[k]], [None] standing for the [KeyError]. *)
Fixpoint dict_get (k : string) (d : list (string * V)) : option V :=
  match d with
  | [] => None
  | (k', v) :: d' => if String.eqb k k' then Some v else dict_get k d'
  end.

(** [d[k] = v]: an existing key keeps its place, a new key goes last. *)
Fixpoint dict_set (k : string) (v : V) (d : list (string * V)) : list (string * V) :=
  match d with
  | [] => [(k, v)]
  | (k', v') :: d' =>
      if String.eqb k k' then (k, v) :: d' else (k', v') :: dict_set k v d'
  end.

Definition dict_keys (d : list (string * V)) : list string := map fst d.
Definition dict_values (d : list (string * V)) : list V := map snd d.
End dict.

(** [d[k]] as a computation. *)
Definition dict_lookup {V : Type} (k : string) (d : list (string * V)) : result V :=
  match dict_get k d with
  | Some v => Ok v
  | None => Raise (KeyError k)
  end.

(** ** [class ClassInfo] *)

(** [list.sort()] on integers. *)
Definition sort (l : list Z) : list Z := sort_by Z.leb l.

Definition VALID_GRADES : list string :=
  ["Pre-K"; "K"; "1"; "2"; "3"; "4"; "5"; "multiple"].

(** [set(range(1, 9))] *)
Definition VALID_PERIODS : gset Z := list_to_set (seqZ 1 8).

(** [re.match] of the four [VALID_CLASS_PATTERNS]. *)
Definition match_prek (s : string) : bool :=          (* ^PK\d{3}$ *)
  match s with
  | String "P" (String "K" rest) => three_digits_end rest
  | _ => false
  end.
Definition match_kindergarten (s : string) : bool :=  (* ^K-\d{3}$ *)
  match s with
  | String "K" (String "-" rest) => three_digits_end rest
  | _ => false
  end.
Definition match_single_grade (s : string) : bool :=  (* ^\d-\d{3}$ *)
  match s with
  | String d (String "-" rest) => is_digit d && three_digits_end rest
  | _ => false
  end.
Definition match_multi_grade (s : string) : bool :=   (* ^[K\d]/[K\d]/[K\d]-\d{3}$ *)
  match s with
  | String a (String "/" (String b (String "/" (String c (String "-" rest))))) =>
      is_K_or_digit a && is_K_or_digit b && is_K_or_digit c && three_digits_end rest
  | _ => false
  end.
Definition VALID_CLASS_PATTERNS : list (string -> bool) :=
  [match_prek; match_kindergarten; match_single_grade; match_multi_grade].

(** [any(re.match(pattern, class_id) for pattern in VALID_CLASS_PATTERNS)] *)
Definition matches_class_pattern (class_id : string) : bool :=
  existsb (fun pattern => pattern class_id) VALID_CLASS_PATTERNS.

Definition DAY_MAP : list (string * Z) :=
  [("Monday", 1); ("Tuesday", 2); ("Wednesday", 3); ("Thursday", 4); ("Friday", 5)].

Record ClassInfo : Type := mkClassInfo {
  class_id : string;
  grade_level : string;
  conflicts : list (string * list Z);
  _all_conflicts : gset (string * Z)
}.

Definition validate_class_id (class_id : string) : result unit :=
  if matches_class_pattern class_id then Ok tt
  else Raise (ValidationError InvalidClassIdFormat).

Definition validate_grade_level (grade_level : string) : result unit :=
  if bool_decide (grade_level ∈ VALID_GRADES) then Ok tt
  else Raise (ValidationError InvalidGradeLevel).

Definition validate_period (period : Z) : result unit :=
  if bool_decide (period ∈ VALID_PERIODS) then Ok tt
  else Raise (ValidationError InvalidPeriodNumber).

(** [ClassInfo.__init__] *)
Definition ClassInfo_init (class_id grade_level : string) : result ClassInfo :=
  validate_class_id class_id;;
  validate_grade_level grade_level;;
  Ok {| class_id := class_id;
        grade_level := grade_level;
        conflicts := [("Monday", []); ("Tuesday", []); ("Wednesday", []);
                      ("Thursday", []); ("Friday", [])];
        _all_conflicts := ∅ |}.

(** [ClassInfo.add_conflict].  The pair enters [_all_conflicts] before
    [self.conflicts[day]] is read, so the [KeyError] of an unknown day comes
    after that insertion; the state left behind by a raise is not
    observable, as nothing catches it. *)
Definition add_conflict (self : ClassInfo) (day : string) (period : Z)
  : result ClassInfo :=
  validate_period period;;
  let conflict := (day, period) in
  if bool_decide (conflict ∈ _all_conflicts self) then Ok self
  else
    let all' := {[conflict]} ∪ _all_conflicts self in
    periods ← dict_lookup day (conflicts self);
    if bool_decide (period ∈ periods)
    then Ok {| class_id := class_id self; grade_level := grade_level self;
               conflicts := conflicts self; _all_conflicts := all' |}
    else Ok {| class_id := class_id self; grade_level := grade_level self;
               conflicts := dict_set day (sort (periods ++ [period])) (conflicts self);
               _all_conflicts := all' |}.

(** The grade that [validate] expects from the part of [class_id] before
    the first ["-"]; [None] is Python's [None]. *)
Definition expected_grade_of (class_id : string) : result (option string) :=
  let class_prefix := hd EmptyString (split "-" class_id) in
  if startswith class_prefix "PK" then Ok (Some "Pre-K")
  else if String.eqb class_prefix "K" then Ok (Some "K")
  else if contains "/" class_prefix then
    for_each (fun (_ : unit) grade =>
                if bool_decide (grade ∈ ["K"; "1"; "2"; "3"; "4"; "5"]) then Ok tt
                else Raise (ValidationError InvalidGradeInMultiple))
             (split "/" class_prefix) tt;;
    Ok (Some "multiple")
  else
    match class_prefix with
    | String d _ =>
        if is_digit d then
          if (5 <? digit_value d)%Z then Raise (ValidationError InvalidGradeNumber)
          else Ok (Some (String d EmptyString))
        else Ok None
    | EmptyString => Ok None
    end.

(** [ClassInfo.validate] *)
Definition validate (self : ClassInfo) : result unit :=
  expected_grade ← expected_grade_of (class_id self);
  (if bool_decide (expected_grade = Some (grade_level self)) then Ok tt
   else Raise (ValidationError GradeLevelMismatch));;
  (if existsb (fun periods : list Z => negb (Nat.eqb (length periods) 0))
              (dict_values (conflicts self))
   then Ok tt
   else Raise (ValidationError HasNoConflicts));;
  for_each (fun (_ : unit) '(day, periods) =>
              if (8 <? length periods)%nat
              then Raise (ValidationError TooManyConflicts)
              else Ok tt)
           (conflicts self) tt.

(** One element of [defaultConflicts]. *)
Record Conflict : Set := mkConflict { dayOfWeek : Z; period : Z }.

Record ClassDict : Set := mkClassDict {
  classNumber : string;
  grade : string;
  defaultConflicts : list Conflict;
  active : bool
}.

(** [ClassInfo.to_dict] *)
Definition to_dict (self : ClassInfo) : result ClassDict :=
  default_conflicts ←
    for_each (fun default_conflicts '(day, periods) =>
                for_each (fun default_conflicts period =>
                            dayOfWeek ← dict_lookup day DAY_MAP;
                            Ok (default_conflicts
                                  ++ [{| dayOfWeek := dayOfWeek; period := period |}]))
                         periods default_conflicts)
             (conflicts self) [];
  Ok {| classNumber := class_id self;
        grade := grade_level self;
        defaultConflicts := default_conflicts;
        active := true |}.

(** ** [class MasterScheduleParser] *)

(** A word of [page.extract_words(...)]: its text and the origin of its
    bounding box. *)
Record Word : Set := mkWord { text : string; x0 : Q; top : Q }.

(** A page is what the text extraction returns for it, for each
    [x_tolerance] it is called with. *)
Record Page : Set := mkPage { extract_words : Z -> list Word }.

Definition DAYS : list string :=
  ["Monday"; "Tuesday"; "Wednesday"; "Thursday"; "Friday"].

Definition Qlt_bool (a b : Q) : bool := negb (Qle_bool b a).

(** [l[-k]] for [k >= 1]. *)
Definition index_from_end {A : Type} (l : list A) (k : nat) : result A :=
  match rev l !! (k - 1)%nat with
  | Some v => Ok v
  | None => Raise IndexError
  end.

(** [l[i]] for [i >= 0]. *)
Definition index {A : Type} (l : list A) (i : nat) : result A :=
  match l !! i with
  | Some v => Ok v
  | None => Raise IndexError
  end.

(** [enumerate(l)] *)
Definition enumerate {A : Type} (l : list A) : list (nat * A) :=
  combine (seq 0 (length l)) l.

(** [not l] for a list. *)
Definition is_empty {A : Type} (l : list A) : bool :=
  match l with [] => true | _ => false end.

(** *** Column calibration *)

(** The [(day, x_pos)] pairs collected from the words of the page. *)
Definition find_day_positions (words : list Word) : list (string * Q) :=
  flat_map (fun word =>
              let word_text := lower (text word) in
              flat_map (fun day =>
                          if contains (lower day) word_text
                          then [(day, x0 word)] else [])
                       DAYS)
           words.

(** [day_order.get(day)] for [day_order = {day: i for i, day in enumerate(DAYS)}] *)
Definition day_order (day : string) : option nat :=
  fst <$> list_find (String.eqb day) DAYS.

Definition FIXED_POSITIONS : list Q := [150; 250; 350; 450; 550]%Q.

(** [while len(ordered_positions) < idx: ...].  Every turn appends one
    position, so the loop takes [idx - len(ordered_positions)] turns;
    [fuel] bounds them.  The divisors are at least 2 and at least 1 under
    the loop condition. *)
Fixpoint fill_missing (fuel idx : nat) (pos : Q) (ordered_positions : list Q)
  : list Q :=
  match fuel with
  | O => ordered_positions
  | S fuel' =>
      if (length ordered_positions <? idx)%nat then
        let missing := (Z.of_nat idx - Z.of_nat (length ordered_positions))%Z in
        match last ordered_positions with
        | Some prev_pos =>
            let step := ((pos - prev_pos) / inject_Z (missing + 1))%Q in
            fill_missing fuel' idx pos (ordered_positions ++ [(prev_pos + step)%Q])
        | None =>
            let step := ((pos - 150) / inject_Z (Z.of_nat idx))%Q in
            fill_missing fuel' idx pos
                         (ordered_positions ++ [(pos - step * inject_Z missing)%Q])
        end
      else ordered_positions
  end.

(** The body of [for day, pos in day_positions]. *)
Definition place_day (ordered_positions : list Q) (entry : string * Q) : list Q :=
  let '(day, pos) := entry in
  match day_order (title day) with
  | Some idx => fill_missing idx idx pos ordered_positions ++ [pos]
  | None => ordered_positions
  end.

(** [while len(ordered_positions) < 5: ...].  Every turn appends one
    position or installs the five fixed ones, so five turns are the most. *)
Fixpoint fill_remaining (fuel : nat) (ordered_positions : list Q) : result (list Q) :=
  match fuel with
  | O => Ok ordered_positions
  | S fuel' =>
      if (length ordered_positions <? 5)%nat then
        if is_empty ordered_positions then fill_remaining fuel' FIXED_POSITIONS
        else
          last_pos ← index_from_end ordered_positions 1;
          before_last ← index_from_end ordered_positions 2;
          let step := (last_pos - before_last)%Q in
          fill_remaining fuel' (ordered_positions ++ [(last_pos + step)%Q])
      else Ok ordered_positions
  end.

(** The order of the sort key [x[1]] of [day_positions.sort]. *)
Definition by_position (a b : string * Q) : bool := Qle_bool (snd a) (snd b).

(** The body of [_calibrate_day_columns] after the early return, on the
    words of the page: the new value of [DAY_COLUMNS]. *)
Definition calibrate (words : list Word) : result (list Q) :=
  let day_positions := find_day_positions words in
  if is_empty day_positions then Ok FIXED_POSITIONS
  else
    let day_positions := sort_by by_position day_positions in
    let ordered_positions := fold_left place_day day_positions [] in
    ordered_positions ← fill_remaining 5 ordered_positions;
    Ok (take 5 ordered_positions).

(** *** Grouping words into lines *)

(** The order of the sort key [(w['top'], w['x0'])]. *)
Definition word_key_le (a b : Word) : bool :=
  Qlt_bool (top a) (top b) || (Qeq_bool (top a) (top b) && Qle_bool (x0 a) (x0 b)).

(** [_group_into_lines].  The difference of two tops is the exact one; the
    program compares its rounding to a double with 5. *)
Definition _group_into_lines (words : list Word) : list (list Word) :=
  let sorted_words := sort_by word_key_le words in
  let '(lines, current_line, _) :=
    fold_left
      (fun '(lines, current_line, current_y) word =>
         let current_y : Q :=
           match current_y with None => top word | Some y => y end in
         if Qlt_bool 5 (Qabs (top word - current_y))
         then ((if is_empty current_line then lines else lines ++ [current_line]),
               [word], Some (top word))
         else (lines, current_line ++ [word], Some current_y))
      sorted_words ([], [], None) in
  if is_empty current_line then lines else lines ++ [current_line].

(** *** Record detection *)

(** [_determine_grade_level] *)
Definition _determine_grade_level (class_id : string) : string :=
  if startswith class_id "PK" then "Pre-K"
  else if startswith class_id "K-" then "K"
  else if contains "/" class_id then "multiple"
  else
    match class_id with
    | String d (String "-" _) =>                      (* (\d)- *)
        if is_digit d then String d EmptyString else "unknown"
    | _ => "unknown"
    end.

(** [_extract_class_info]: [None] when the line opens no record.  A
    [ValidationError] of the constructor is caught; nothing else is. *)
Definition _extract_class_info (line : list Word) : result (option ClassInfo) :=
  if is_empty line || (length line <? 2)%nat then Ok None
  else
    second ← index line 1;
    let class_id := strip (text second) in
    if negb (matches_class_pattern class_id) then Ok None
    else
      let grade_level := _determine_grade_level class_id in
      if String.eqb grade_level "unknown" then Ok None
      else
        match ClassInfo_init class_id grade_level with
        | Ok class_info => Ok (Some class_info)
        | Raise (ValidationError _) => Ok None
        | Raise e => Raise e
        end.

(** *** Conflict extraction *)

(** [re.search(r'([1-8])', s)] followed by [int(period_match.group(1))]. *)
Fixpoint search_period (s : string) : option Z :=
  match s with
  | EmptyString => None
  | String c s' =>
      let n := nat_of_ascii c in
      if (49 <=? n)%nat && (n <=? 56)%nat then Some (digit_value c)
      else search_period s'
  end.

(** [re.match(r'^\d+$', s)] *)
Fixpoint all_digits_end (s : string) : bool :=
  match s with
  | String c s' => is_digit c && (at_end s' || all_digits_end s')
  | EmptyString => false
  end.

(** The column search: the index of the nearest column closer than 100;
    [min_distance] starts at [float('inf')], here [None].  The distances
    are the exact ones; the program compares their roundings to doubles. *)
Definition find_day_column (DAY_COLUMNS : list Q) (x_pos : Q) : option nat :=
  fst (fold_left
         (fun '(day_idx, min_distance) '(idx, col_x) =>
            let distance := Qabs (x_pos - col_x) in
            if match min_distance with
               | None => true
               | Some m => Qlt_bool distance m
               end && Qlt_bool distance 100
            then (Some idx, Some distance)
            else (day_idx, min_distance))
         (enumerate DAY_COLUMNS) (None, None)).

(** [range(start, stop, -1)] *)
Definition range_down (start stop : Z) : list Z :=
  map (fun k => start - Z.of_nat k) (seq 0 (Z.to_nat (start - stop))).

(** The subject lookback: the nearest of the two previous words, not before
    [start_idx], whose lower-cased text is not a number. *)
Definition find_subject (line : list Word) (start_idx i : Z) : option string :=
  fold_left
    (fun subject j =>
       match subject with
       | Some _ => subject                                    (* after [break] *)
       | None =>
           if (0 <=? j) && (j <? Z.of_nat (length line)) then
             match line !! Z.to_nat j with
             | Some prev =>
                 let prev_word := lower (text prev) in
                 if negb (all_digits_end prev_word) then Some prev_word else None
             | None => None
             end
           else None
       end)
    (range_down (i - 1) (Z.max (start_idx - 1) (i - 3))) None.

(** [if subject:] *)
Definition truthy (subject : option string) : bool :=
  match subject with
  | Some (String _ _) => true
  | _ => false
  end.

(** One turn of the [while i < len(line)] loop. *)
Definition extract_word (DAY_COLUMNS : list Q) (line : list Word) (start_idx : Z)
    (class_info : ClassInfo) (entry : nat * Word) : result ClassInfo :=
  let '(i, word) := entry in
  match search_period (text word) with
  | None => Ok class_info
  | Some period =>
      match find_day_column DAY_COLUMNS (x0 word) with
      | None => Ok class_info
      | Some day_idx =>
          day ← index DAYS day_idx;
          let subject := find_subject line start_idx (Z.of_nat i) in
          if truthy subject
          then add_conflict class_info day period
          else add_conflict class_info day period
      end
  end.

(** [_extract_conflicts]: the record after the line's conflicts are added. *)
Definition _extract_conflicts (DAY_COLUMNS : list Q) (line : list Word)
    (class_info : ClassInfo) (continuation_line : bool) : result ClassInfo :=
  if is_empty line || is_empty DAY_COLUMNS then Ok class_info
  else
    let start_idx := if negb continuation_line then 2%nat else 0%nat in
    for_each (extract_word DAY_COLUMNS line (Z.of_nat start_idx))
             (drop start_idx (enumerate line)) class_info.

(** *** Pages and the document *)

(** The parser and the records it has created.  A [ClassInfo] is a mutable
    object: [heap] holds the objects, a reference is an index into it, and
    [classes] maps a class identifier to a reference, in insertion order. *)
Record MasterScheduleParser : Type := mkParser {
  heap : list ClassInfo;
  classes : list (string * nat);
  DAY_COLUMNS : list Q
}.

(** [MasterScheduleParser.__init__] *)
Definition MasterScheduleParser_init : MasterScheduleParser :=
  {| heap := []; classes := []; DAY_COLUMNS := [] |}.

(** The body of [for line in lines]; [current_class] is a reference. *)
Definition process_line (st : MasterScheduleParser * option nat) (line : list Word)
  : result (MasterScheduleParser * option nat) :=
  let '(self, current_class) := st in
  class_info ← _extract_class_info line;
  let '(self, current_class, continuation_line) :=
    match class_info with
    | Some class_info =>
        let ref := length (heap self) in
        ({| heap := heap self ++ [class_info];
            classes := dict_set (class_id class_info) ref (classes self);
            DAY_COLUMNS := DAY_COLUMNS self |},
         Some ref, false)
    | None => (self, current_class, true)
    end in
  match current_class with
  | Some ref =>
      obj ← index (heap self) ref;
      obj' ← _extract_conflicts (DAY_COLUMNS self) line obj continuation_line;
      Ok ({| heap := <[ref := obj']> (heap self);
             classes := classes self;
             DAY_COLUMNS := DAY_COLUMNS self |},
          current_class)
  | None => Ok (self, current_class)
  end.

(** [_process_page] *)
Definition _process_page (self : MasterScheduleParser) (page : Page)
  : result MasterScheduleParser :=
  let text := extract_words page 5 in
  let lines := _group_into_lines text in
  st ← for_each process_line lines (self, None);
  Ok (fst st).

(** [_calibrate_day_columns] *)
Definition _calibrate_day_columns (self : MasterScheduleParser) (page : Page)
  : result MasterScheduleParser :=
  if negb (is_empty (DAY_COLUMNS self)) then Ok self
  else
    columns ← calibrate (extract_words page 3);
    Ok {| heap := heap self; classes := classes self; DAY_COLUMNS := columns |}.

(** [_validate_results]; the grade histogram it prints is left out. *)
Definition _validate_results (self : MasterScheduleParser) : result unit :=
  for_each (fun (class_ids : gset string) class_id =>
              if bool_decide (class_id ∈ class_ids)
              then Raise (ValidationError DuplicateClassIdentifier)
              else Ok ({[class_id]} ∪ class_ids))
           (dict_keys (classes self)) ∅;;
  for_each (fun (_ : unit) ref =>
              class_info ← index (heap self) ref;
              validate class_info)
           (dict_values (classes self)) tt.

(** [parse], on the pages of the document: the mapping it returns, with the
    objects read off the heap. *)
Definition parse (pages : list Page) : result (list (string * ClassInfo)) :=
  self ← for_each (fun self page =>
                     self ← (if is_empty (DAY_COLUMNS self)
                             then _calibrate_day_columns self page
                             else Ok self);
                     _process_page self page)
                  pages MasterScheduleParser_init;
  _validate_results self;;
  for_each (fun result '(class_id, ref) =>
              class_info ← index (heap self) ref;
              Ok (result ++ [(class_id, class_info)]))
           (classes self) [].

(** *** The command line *)

(** The payload of [main]: ['classes': [class_info.to_dict() for class_info
    in classes.values()]], for the pages of the document it was given. *)
Definition main_result (pages : list Page) : result (list ClassDict) :=
  classes ← parse pages;
  for_each (fun result class_info =>
              d ← to_dict class_info;
              Ok (result ++ [d]))
           (dict_values classes) [].

(** [main], from the parsed arguments on: the exit code, and the payload
    printed on standard output when there is one.  [except Exception]
    turns every raise into exit code 1. *)
Definition main (pages : list Page) : Z * option (list ClassDict) :=
  match main_result pages with
  | Ok payload => (0, Some payload)
  | Raise _ => (1, None)
  end.

(** ** Notions used by the statements *)

(** A sequence of [add_conflict] calls on one record. *)
Definition add_conflicts (calls : list (string * Z)) (self : ClassInfo)
  : result ClassInfo :=
  for_each (fun self '(day, period) => add_conflict self day period) calls self.

(** The periods recorded for [day]; empty for a day the record lacks. *)
Definition periods_of (self : ClassInfo) (day : string) : list Z :=
  default [] (dict_get day (conflicts self)).

Definition strictly_ascending (periods : list Z) : Prop :=
  StronglySorted Z.lt periods.

(** Day first, then period. *)
Definition conflict_lt (a b : Conflict) : Prop :=
  dayOfWeek a < dayOfWeek b ∨ (dayOfWeek a = dayOfWeek b ∧ period a < period b).

(** The recorded periods of Monday (1) to Friday (5), day by day. *)
Definition conflicts_by_day (self : ClassInfo) : list Conflict :=
  flat_map (fun '(day, number) =>
              map (fun period => {| dayOfWeek := number; period := period |})
                  (periods_of self day))
           DAY_MAP.

(** The weekday names that occur in the lower-cased text of a word. *)
Definition word_days (w : Word) : list string :=
  filter (fun day => contains (lower day) (lower (text w)) = true) DAYS.

Definition ascending (xs : list Q) : Prop := Sorted Qle xs.

(** The leftmost candidate, the first in ascending order of position, is a
    Monday or lies at 150 or right of it; an empty list of candidates
    counts as well. *)
Definition leftmost_monday_or_from_150 (day_positions : list (string * Q)) : Prop :=
  match day_positions with
  | (day, pos) :: _ => day = "Monday" ∨ (150 <= pos)%Q
  | [] => True
  end.

(** The conflict extraction of the specification, without the lookback for
    a subject: each word from the start index on that holds a digit 1-8 and
    lies within 100 of a day column adds that day and period. *)
Definition extract_word_without_lookback (DAY_COLUMNS : list Q)
    (class_info : ClassInfo) (entry : nat * Word) : result ClassInfo :=
  let '(_, word) := entry in
  match search_period (text word) with
  | None => Ok class_info
  | Some period =>
      match find_day_column DAY_COLUMNS (x0 word) with
      | None => Ok class_info
      | Some day_idx =>
          day ← index DAYS day_idx;
          add_conflict class_info day period
      end
  end.

Definition _extract_conflicts_without_lookback (DAY_COLUMNS : list Q)
    (line : list Word) (class_info : ClassInfo) (continuation_line : bool)
  : result ClassInfo :=
  if is_empty line || is_empty DAY_COLUMNS then Ok class_info
  else
    let start_idx := if negb continuation_line then 2%nat else 0%nat in
    for_each (extract_word_without_lookback DAY_COLUMNS)
             (drop start_idx (enumerate line)) class_info.

(** What the constructor establishes and [add_conflict] keeps: the five
    weekday keys in order, each with strictly ascending periods in 1..8. *)
Definition well_formed (self : ClassInfo) : Prop :=
  dict_keys (conflicts self) = DAYS ∧
  Forall (fun periods => strictly_ascending periods ∧
                         Forall (fun p => 1 <= p <= 8) periods)
         (dict_values (conflicts self)).

Definition valid_call (call : string * Z) : Prop :=
  fst call ∈ DAYS ∧ 1 <= snd call <= 8.

(** The dedup set and the per-day lists hold the same pairs. *)
Definition tracks (self : ClassInfo) : Prop :=
  ∀ day p, (day, p) ∈ _all_conflicts self ↔ p ∈ periods_of self day.

(** The conflict a word stands for under the calibrated columns: the first
    digit 1-8 of its text as the period, and the weekday of the nearest
    column within 100 of its left edge. *)
Definition word_conflict (DAY_COLUMNS : list Q) (word : Word) : option (string * Z) :=
  period ← search_period (text word);
  day_idx ← find_day_column DAY_COLUMNS (x0 word);
  day ← DAYS !! day_idx;
  Some (day, period).

(** The distance of a position to a column. *)
Definition distance (x_pos col_x : Q) : Q := Qabs (x_pos - col_x).

(** The state of the column search after the columns [pre]. *)
Definition column_search_inv (x_pos : Q) (pre : list Q)
    (st : option nat * option Q) : Prop :=
  match st with
  | (None, None) => Forall (fun col_x => (100 <= distance x_pos col_x)%Q) pre
  | (Some i, Some d) =>
      ∃ col_x, pre !! i = Some col_x ∧ d = distance x_pos col_x ∧
               (d < 100)%Q ∧
               (∀ j c, pre !! j = Some c → (d <= distance x_pos c)%Q) ∧
               (∀ j c, (j < i)%nat → pre !! j = Some c → (d < distance x_pos c)%Q)
  | _ => False
  end.

(** The vertical position a line is anchored at: that of its first word. *)
Definition anchor (line : list Word) : Q :=
  match line with
  | w :: _ => top w
  | [] => 0
  end.

(** A line is not empty and its words lie within 5 of its anchor. *)
Definition line_within_tolerance (line : list Word) : Prop :=
  line ≠ [] ∧ Forall (fun w => (Qabs (top w - anchor line) <= 5)%Q) line.

(** Each position is more than 5 away from the one before it. *)
Fixpoint anchors_separated (ys : list Q) : Prop :=
  match ys with
  | y1 :: (y2 :: _) as rest => (5 < Qabs (y2 - y1))%Q ∧ anchors_separated rest
  | _ => True
  end.

(** The state of the grouping loop after the words [seen]. *)
Definition grouping_inv (seen : list Word)
    (st : list (list Word) * list Word * option Q) : Prop :=
  let '(lines, current_line, current_y) := st in
  concat lines ++ current_line = seen ∧
  Forall line_within_tolerance lines ∧
  match current_line with
  | [] => current_y = None ∧ lines = []
  | w :: _ =>
      current_y = Some (top w) ∧ line_within_tolerance current_line ∧
      anchors_separated (map anchor (lines ++ [current_line]))
  end.

(** [start + 1 * step, ..., start + n * step] *)
Definition evenly_spaced (start step : Q) (n : nat) : list Q :=
  map (fun k => (start + inject_Z (Z.of_nat k) * step)%Q) (seq 1 n).

(** What [parse] keeps true of the parser between lines: the identifiers
    in [classes] are distinct, each refers to a record on the heap that
    carries it, the records are well formed, and at most five columns are
    calibrated. *)
Definition parser_inv (self : MasterScheduleParser) : Prop :=
  NoDup (dict_keys (classes self)) ∧
  (∀ cid ref, (cid, ref) ∈ classes self →
              ∃ r, heap self !! ref = Some r ∧ class_id r = cid) ∧
  Forall well_formed (heap self) ∧
  (length (DAY_COLUMNS self) <= 5)%nat.

(** The computation does not end in the duplicate-identifier error. *)
Definition no_duplicate_error {A : Type} (m : result A) : Prop :=
  m ≠ Raise (ValidationError DuplicateClassIdentifier).

(** ** Sample inputs *)

Definition lone_tuesday_page : Page :=
  {| extract_words := fun _ => [{| text := "Tuesday"; x0 := 100; top := 10 |}] |}.

Definition lone_monday_page : Page :=
  {| extract_words := fun _ => [{| text := "Monday"; x0 := 100; top := 10 |}] |}.

Definition header_words : list Word :=
  [{| text := "Monday"; x0 := 150; top := 10 |};
   {| text := "Tuesday"; x0 := 250; top := 10 |};
   {| text := "Wednesday"; x0 := 350; top := 10 |};
   {| text := "Thursday"; x0 := 450; top := 10 |};
   {| text := "Friday"; x0 := 550; top := 10 |}].

(** Two pages that each open a record "PK207": the first with "Tech 2"
    under Tuesday, the second with "Lib 3" under Monday. *)
Definition first_page : Page :=
  {| extract_words := fun _ =>
       header_words ++
       [{| text := "001"; x0 := 20; top := 50 |};
        {| text := "PK207"; x0 := 60; top := 50 |};
        {| text := "Tech"; x0 := 230; top := 50 |};
        {| text := "2"; x0 := 250; top := 50 |}] |}.

Definition second_page : Page :=
  {| extract_words := fun _ =>
       [{| text := "002"; x0 := 20; top := 50 |};
        {| text := "PK207"; x0 := 60; top := 50 |};
        {| text := "Lib"; x0 := 130; top := 50 |};
        {| text := "3"; x0 := 150; top := 50 |}] |}.

(** A new record for room "PK207", and calls that repeat a pair and come
    out of order. *)
Definition sample_record : ClassInfo :=
  {| class_id := "PK207"; grade_level := "Pre-K";
     conflicts := [("Monday", []); ("Tuesday", []); ("Wednesday", []);
                   ("Thursday", []); ("Friday", [])];
     _all_conflicts := ∅ |}.

Definition sample_calls : list (string * Z) :=
  [("Monday", 3); ("Friday", 8); ("Monday", 1); ("Monday", 3); ("Tuesday", 2)].

(** A line whose second word is the identifier "9-999" with blanks around. *)
Definition grade_nine_line : list Word :=
  [{| text := "007"; x0 := 20; top := 50 |};
   {| text := " 9-999 "; x0 := 60; top := 50 |};
   {| text := "Art"; x0 := 230; top := 50 |};
   {| text := "4"; x0 := 250; top := 50 |}].

Definition scenario_page : Page :=
  {| extract_words := fun _ =>
       header_words ++
       [{| text := "001"; x0 := 20; top := 50 |};
        {| text := "PK207"; x0 := 60; top := 50 |};
        {| text := "Tech"; x0 := 230; top := 50 |};
        {| text := "2"; x0 := 250; top := 50 |};
        {| text := "Lib"; x0 := 130; top := 62 |};
        {| text := "3"; x0 := 150; top := 62 |}] |}.

(** The same pairs as [sample_calls], in another order and without the
    repetition. *)
Definition sample_calls_reordered : list (string * Z) :=
  [("Tuesday", 2); ("Monday", 1); ("Monday", 3); ("Friday", 8)].

(** The line that opens "PK207" on [first_page]. *)
Definition opening_line : list Word :=
  [{| text := "001"; x0 := 20; top := 50 |};
   {| text := "PK207"; x0 := 60; top := 50 |};
   {| text := "Tech"; x0 := 230; top := 50 |};
   {| text := "2"; x0 := 250; top := 50 |}].

(** A line that opens a multi-grade record with a component 0. *)
Definition multi_grade_line : list Word :=
  [{| text := "010"; x0 := 20; top := 50 |};
   {| text := "0/1/2-123"; x0 := 60; top := 50 |}].

Definition multi_grade_record : ClassInfo :=
  {| class_id := "0/1/2-123"; grade_level := "multiple";
     conflicts := [("Monday", []); ("Tuesday", []); ("Wednesday", []);
                   ("Thursday", []); ("Friday", [])];
     _all_conflicts := ∅ |}.

(** The parser after calibration on [first_page]. *)
Definition calibrated_parser : MasterScheduleParser :=
  {| heap := []; classes := []; DAY_COLUMNS := FIXED_POSITIONS |}.

(** What [parse] returns for [scenario_page]. *)
Definition scenario_result : list (string * ClassInfo) :=
  match parse [scenario_page] with
  | Ok result => result
  | Raise _ => []
  end.

(** Two headers out of canonical order: Friday at 200 left of Monday at 300. *)
Definition out_of_order_page : Page :=
  {| extract_words := fun _ =>
       [{| text := "Monday"; x0 := 300; top := 10 |};
        {| text := "Friday"; x0 := 200; top := 10 |}] |}.

(** * Properties *)

(** ** Sorting *)

Section sorting_facts.
Context {A : Type} (le : A -> A -> bool).

Lemma insert_by_perm (x : A) (l : list A) : insert_by le x l ≡ₚ x :: l.
Proof.
  induction l as [|y l IH]; simpl; [done|].
  destruct (le x y); [done|].
  rewrite IH. apply Permutation_swap.
Qed.

Lemma sort_by_perm (l : list A) : sort_by le l ≡ₚ l.
Proof.
  induction l as [|x l IH]; simpl; [done|].
  by rewrite insert_by_perm, IH.
Qed.

Hypothesis le_total : ∀ a b, le a b = true ∨ le b a = true.

Lemma insert_by_sorted (x : A) (l : list A) :
  Sorted le l → Sorted le (insert_by le x l).
Proof.
  induction 1 as [|y l Hl IH Hy]; simpl.
  - repeat constructor.
  - destruct (le x y) eqn:Hxy.
    + constructor; [by constructor|]. constructor. by rewrite Hxy.
    + constructor; [done|].
      assert (le y x = true) as Hyx by (destruct (le_total x y); congruence).
      destruct Hy as [|z l Hz]; simpl.
      * constructor. by rewrite Hyx.
      * destruct (le x z); constructor; by rewrite ?Hyx.
Qed.

Lemma sort_by_sorted (l : list A) : Sorted le (sort_by le l).
Proof.
  induction l as [|x l IH]; simpl; [constructor|].
  by apply insert_by_sorted.
Qed.
End sorting_facts.

(** Two sorted arrangements of the same elements agree when the order
    separates the elements. *)
Lemma sorted_perm_unique {A : Type} (R : A → A → Prop) (l l' : list A) :
  (∀ a b, a ∈ l → b ∈ l → R a b → R b a → a = b) →
  StronglySorted R l → StronglySorted R l' → l ≡ₚ l' → l = l'.
Proof.
  revert l'. induction l as [|a l IH]; intros l' Hanti Hl Hl' Hp.
  - by apply Permutation_nil in Hp.
  - destruct l' as [|b l']; [by apply Permutation_sym, Permutation_nil in Hp|].
    apply StronglySorted_inv in Hl as [Hl Ha].
    apply StronglySorted_inv in Hl' as [Hl' Hb].
    assert (a = b) as ->.
    { assert (a ∈ b :: l') as Hin by (rewrite <-Hp; left).
      assert (b ∈ a :: l) as Hin' by (rewrite Hp; left).
      apply elem_of_cons in Hin as [?|Hin]; [done|].
      apply elem_of_cons in Hin' as [?|Hin']; [done|].
      rewrite Forall_forall in Ha, Hb.
      apply Hanti; [left | by right | | ].
      - by apply Ha.
      - by apply Hb. }
    f_equal. apply IH; [|done|done|by apply Permutation_cons_inv in Hp].
    intros x y Hx Hy. apply Hanti; by right.
Qed.

Lemma sort_strictly_ascending (l : list Z) :
  NoDup l → strictly_ascending (sort l).
Proof.
  intros Hnd. unfold strictly_ascending, sort.
  assert (StronglySorted Z.le (sort_by Z.leb l)) as Hs.
  { apply Sorted_StronglySorted; [intros ???; lia|].
    eapply Sorted_ind with (P := Sorted Z.le); [constructor| |apply (sort_by_sorted Z.leb); intros; lia].
    intros a l0 _ IH Hhd. constructor; [done|].
    destruct Hhd; constructor. by apply Z.leb_le, Is_true_true. }
  assert (NoDup (sort_by Z.leb l)) as Hnd'.
  { by rewrite sort_by_perm. }
  clear Hnd. induction Hs as [|a l0 Hs IH Ha]; [constructor|].
  apply NoDup_cons in Hnd' as [Hnin Hnd'].
  constructor; [by apply IH|].
  rewrite Forall_forall in *. intros x Hx.
  specialize (Ha x Hx).
  assert (a ≠ x) by (intros ->; done). lia.
Qed.

(** ** The error monad *)

Lemma bind_Ok {A B : Type} (m : result A) (k : A → result B) (v : B) :
  m ≫= k = Ok v ↔ ∃ a, m = Ok a ∧ k a = Ok v.
Proof.
  destruct m as [a|e]; simpl; split.
  - intros H. by exists a.
  - by intros (? & [= <-] & ?).
  - done.
  - by intros (? & [=] & ?).
Qed.

Lemma for_each_app {A S : Type} (body : S → A → result S) (xs ys : list A) (s : S) :
  for_each body (xs ++ ys) s = for_each body xs s ≫= for_each body ys.
Proof.
  revert s. induction xs as [|x xs IH]; intros s; simpl; [done|].
  destruct (body s x); simpl; [apply IH|done].
Qed.

(** A loop whose body keeps an invariant and cannot raise under it runs to
    the end and keeps the invariant. *)
Lemma for_each_invariant {A S : Type} (I : S → Prop) (P : A → Prop)
    (body : S → A → result S) (xs : list A) (s : S) :
  (∀ s x, I s → P x → ∃ s', body s x = Ok s' ∧ I s') →
  I s → Forall P xs → ∃ s', for_each body xs s = Ok s' ∧ I s'.
Proof.
  intros Hbody. revert s. induction xs as [|x xs IH]; intros s Hs Hxs; simpl.
  - by exists s.
  - apply Forall_cons in Hxs as [Hx Hxs].
    destruct (Hbody s x Hs Hx) as (s' & -> & Hs'); simpl. by apply IH.
Qed.

(** ** Dictionaries *)

Section dict_facts.
Context {V : Type}.
Implicit Types (d : list (string * V)) (k : string) (v : V).

Lemma dict_get_Some_keys k d : k ∈ dict_keys d → is_Some (dict_get k d).
Proof.
  induction d as [|[k' v'] d IH]; simpl; [by intros ?%elem_of_nil|].
  intros [->|Hin]%elem_of_cons.
  - rewrite String.eqb_refl. by eexists.
  - destruct (String.eqb k k'); [by eexists|by apply IH].
Qed.

Lemma dict_get_Some_values k d v : dict_get k d = Some v → v ∈ dict_values d.
Proof.
  induction d as [|[k' v'] d IH]; simpl; [done|].
  destruct (String.eqb k k').
  - intros [= ->]. left.
  - intros ?. right. by apply IH.
Qed.

Lemma dict_set_keys k v d : k ∈ dict_keys d → dict_keys (dict_set k v d) = dict_keys d.
Proof.
  induction d as [|[k' v'] d IH]; simpl; [by intros ?%elem_of_nil|].
  destruct (String.eqb k k') eqn:E.
  - apply String.eqb_eq in E as ->. done.
  - intros [->|Hin]%elem_of_cons; [by rewrite String.eqb_refl in E|].
    simpl. f_equal. by apply IH.
Qed.

Lemma dict_set_values (P : V → Prop) k v d :
  P v → Forall P (dict_values d) → Forall P (dict_values (dict_set k v d)).
Proof.
  intros Hv. induction d as [|[k' v'] d IH]; simpl.
  - by repeat constructor.
  - intros [Hv' Hd]%Forall_cons. destruct (String.eqb k k'); simpl.
    + by constructor.
    + constructor; [done|by apply IH].
Qed.

Lemma dict_get_set_eq k v d : dict_get k (dict_set k v d) = Some v.
Proof.
  induction d as [|[k' v'] d IH]; simpl.
  - by rewrite String.eqb_refl.
  - destruct (String.eqb k k') eqn:E; simpl; by rewrite ?String.eqb_refl, ?E.
Qed.

Lemma dict_get_set_ne k k' v d : k ≠ k' → dict_get k' (dict_set k v d) = dict_get k' d.
Proof.
  intros Hne. induction d as [|[k0 v0] d IH]; simpl.
  - by apply String.eqb_neq in Hne; rewrite String.eqb_sym, Hne.
  - destruct (String.eqb k k0) eqn:E; simpl.
    + apply String.eqb_eq in E as <-.
      assert (String.eqb k' k = false) as -> by (apply String.eqb_neq; congruence).
      done.
    + by rewrite IH.
Qed.
End dict_facts.

(** ** The record type *)

Lemma validate_period_Ok (period : Z) :
  validate_period period = Ok tt ↔ 1 <= period <= 8.
Proof.
  unfold validate_period, VALID_PERIODS. case_bool_decide as H.
  - split; [intros _|done].
    apply elem_of_list_to_set, elem_of_seqZ in H. lia.
  - split; [done|]. intros Hp. contradict H.
    apply elem_of_list_to_set, elem_of_seqZ. lia.
Qed.

Lemma ClassInfo_init_well_formed (cid g : string) (self : ClassInfo) :
  ClassInfo_init cid g = Ok self →
  well_formed self ∧ class_id self = cid ∧ grade_level self = g ∧
  _all_conflicts self = ∅.
Proof.
  unfold ClassInfo_init.
  intros (_ & _ & (_ & _ & [= <-])%bind_Ok)%bind_Ok. simpl.
  split; [|done]. split; [done|]. simpl.
  repeat constructor.
Qed.

Lemma strictly_ascending_NoDup (l : list Z) : strictly_ascending l → NoDup l.
Proof.
  induction 1 as [|a l _ IH Ha]; constructor; [|done].
  rewrite Forall_forall in Ha. intros Hin. specialize (Ha a Hin). lia.
Qed.

Lemma strictly_ascending_length (l : list Z) (lo hi : Z) :
  strictly_ascending l → Forall (fun p => lo <= p <= hi) l →
  Z.of_nat (length l) <= Z.max 0 (hi - lo + 1).
Proof.
  intros Hs. revert lo. induction Hs as [|a l _ IH Ha]; intros lo Hb; simpl; [lia|].
  apply Forall_cons in Hb as [Hlo Hb].
  specialize (IH (a + 1)). 
  assert (Forall (λ p, a + 1 <= p <= hi) l) as Hb'.
  { rewrite Forall_forall in *. intros x Hx.
    specialize (Ha x Hx). specialize (Hb x Hx). lia. }
  specialize (IH Hb'). lia.
Qed.

(** [add_conflict] with a weekday and a period in 1..8 returns and keeps
    the record well formed. *)
Lemma add_conflict_well_formed (self : ClassInfo) (day : string) (period : Z) :
  well_formed self → day ∈ DAYS → 1 <= period <= 8 →
  ∃ self', add_conflict self day period = Ok self' ∧ well_formed self' ∧
           (day, period) ∈ _all_conflicts self'.
Proof.
  intros [Hkeys Hvals] Hday Hp. unfold add_conflict.
  apply validate_period_Ok in Hp as Hv. rewrite Hv. simpl.
  case_bool_decide as Hin; [by exists self|].
  unfold dict_lookup.
  destruct (dict_get_Some_keys day (conflicts self)) as [periods Hget];
    [by rewrite Hkeys|].
  rewrite Hget. simpl.
  case_bool_decide as Hmem; eexists; (split; [done|]); simpl;
    (split; [|by apply elem_of_union_l, elem_of_singleton]); split; simpl; try done.
  - by rewrite dict_set_keys by by rewrite Hkeys.
  - apply dict_get_Some_values in Hget.
    rewrite Forall_forall in Hvals. destruct (Hvals _ Hget) as [Hasc Hbound].
    apply dict_set_values; [|by apply Forall_forall].
    split.
    + apply sort_strictly_ascending, NoDup_app.
      split; [by apply strictly_ascending_NoDup|].
      split; [|apply NoDup_singleton].
      intros x Hx ->%list_elem_of_singleton. done.
    + unfold sort. rewrite sort_by_perm. apply Forall_app. split; [done|].
      by constructor.
Qed.

Lemma add_conflicts_well_formed (calls : list (string * Z)) (self : ClassInfo) :
  well_formed self → Forall valid_call calls →
  ∃ self', add_conflicts calls self = Ok self' ∧ well_formed self'.
Proof.
  intros Hwf Hcalls. unfold add_conflicts.
  apply (for_each_invariant well_formed valid_call); [|done|done].
  intros s [day period] Hs [Hd Hp].
  destruct (add_conflict_well_formed s day period Hs Hd Hp) as (s' & ? & ? & _).
  by exists s'.
Qed.

Lemma for_each_Raise {A S : Type} (body : S → A → result S) (xs : list A) (s : S)
    (e : exn) :
  for_each body xs s = Raise e → ∃ s' x, x ∈ xs ∧ body s' x = Raise e.
Proof.
  revert s. induction xs as [|x xs IH]; intros s; simpl; [done|].
  destruct (body s x) as [s'|e'] eqn:Hb; simpl.
  - intros (s'' & y & ? & ?)%IH. exists s'', y. split; [by right|done].
  - intros [= ->]. exists s, x. split; [left|done].
Qed.

Lemma expected_grade_of_Raise (cid : string) (e : exn) :
  expected_grade_of cid = Raise e →
  e = ValidationError InvalidGradeInMultiple ∨ e = ValidationError InvalidGradeNumber.
Proof.
  unfold expected_grade_of.
  repeat case_match; try done; subst.
  - destruct (for_each _ _ _) as [|e'] eqn:Hloop; simpl; [done|].
    intros [= ->]. apply for_each_Raise in Hloop as (? & grade & _ & Hg).
    case_bool_decide; [done|]. injection Hg as <-. by left.
  - intros [= <-]. by right.
Qed.

Lemma periods_of_values (self : ClassInfo) (day : string) :
  day ∈ dict_keys (conflicts self) →
  periods_of self day ∈ dict_values (conflicts self).
Proof.
  intros [periods Hget]%dict_get_Some_keys. unfold periods_of. rewrite Hget.
  by apply dict_get_Some_values in Hget.
Qed.

(** The last loop of [validate] passes when no day has more than 8 periods. *)
Lemma validate_not_too_many (self : ClassInfo) :
  Forall (fun periods : list Z => (length periods <= 8)%nat)
         (dict_values (conflicts self)) →
  validate self ≠ Raise (ValidationError TooManyConflicts).
Proof.
  intros Hlen. unfold validate.
  destruct (expected_grade_of _) as [eg|e] eqn:He; simpl.
  2: { apply expected_grade_of_Raise in He as [->| ->]; congruence. }
  case_bool_decide; simpl; [|congruence].
  destruct (existsb _ _); simpl; [|congruence].
  destruct (for_each_invariant (fun _ => True)
              (fun entry : string * list Z => (length (snd entry) <= 8)%nat)
              (fun (_ : unit) '(day, periods) =>
                 if (8 <? length periods)%nat
                 then Raise (ValidationError TooManyConflicts) else Ok tt)
              (conflicts self) tt) as (u & -> & _); [| done | | done].
  - intros _ [day periods] _ Hle. simpl in Hle.
    destruct (Nat.ltb_spec 8 (length periods)); [lia|]. by exists tt.
  - unfold dict_values in Hlen. by rewrite Forall_map in Hlen.
Qed.

(** ** Serialization *)

Lemma to_dict_day (day : string) (number : Z) (periods : list Z)
    (default_conflicts : list Conflict) :
  dict_get day DAY_MAP = Some number →
  for_each (fun default_conflicts period =>
              dayOfWeek ← dict_lookup day DAY_MAP;
              Ok (default_conflicts
                    ++ [{| dayOfWeek := dayOfWeek; period := period |}]))
           periods default_conflicts
  = Ok (default_conflicts
          ++ map (fun period => {| dayOfWeek := number; period := period |}) periods).
Proof.
  intros Hday.
  assert (dict_lookup day DAY_MAP = Ok number) as Hlookup
    by (unfold dict_lookup; by rewrite Hday).
  rewrite Hlookup. revert default_conflicts.
  induction periods as [|p periods IH]; intros acc; simpl.
  - by rewrite app_nil_r.
  - etrans; [apply IH|]. by rewrite <-app_assoc.
Qed.

Lemma StronglySorted_app_iff {A : Type} (R : A → A → Prop) (l1 l2 : list A) :
  StronglySorted R l1 → StronglySorted R l2 →
  (∀ a b, a ∈ l1 → b ∈ l2 → R a b) →
  StronglySorted R (l1 ++ l2).
Proof.
  intros H1 H2 H12. induction H1 as [|a l1 H1 IH Ha]; simpl; [done|].
  constructor.
  - apply IH. intros x y Hx Hy. apply H12; [by right|done].
  - apply Forall_app. split; [done|].
    apply Forall_forall. intros y Hy. apply H12; [left|done].
Qed.

Lemma by_day_sorted (days : list (Z * list Z)) :
  StronglySorted Z.lt (map fst days) →
  Forall strictly_ascending (map snd days) →
  StronglySorted conflict_lt
    (flat_map (fun '(number, periods) =>
                 map (fun period => {| dayOfWeek := number; period := period |})
                     periods) days).
Proof.
  induction days as [|[n ps] days IH]; simpl; [constructor|].
  intros [Hdays Hn]%StronglySorted_inv [Hps Hrest]%Forall_cons.
  apply StronglySorted_app_iff; [|by apply IH|].
  - clear -Hps. induction Hps as [|p ps _ IH Hp]; simpl; constructor; [done|].
    apply Forall_map. eapply Forall_impl; [done|].
    intros q Hq. right. done.
  - intros a b [p [-> _]]%list_elem_of_fmap Hb.
    apply list_elem_of_In, in_flat_map in Hb as ([m qs] & Hm & Hb).
    apply in_map_iff in Hb as (q & <- & _). left. simpl.
    rewrite Forall_forall in Hn. apply Hn.
    apply list_elem_of_fmap. exists (m, qs). split; [done|].
    by apply list_elem_of_In.
Qed.

(** C3: a second [add_conflict] with the same weekday and period leaves the
    per-day lists and the dedup set as the first call left them. *)
Theorem add_conflict_idempotent (self : ClassInfo) (day : string) (period : Z) :
  dict_keys (conflicts self) = DAYS → day ∈ DAYS → 1 <= period <= 8 →
  ∃ once, add_conflict self day period = Ok once ∧
          add_conflict once day period = Ok once.
Proof.
  intros Hkeys Hday Hp.
  assert (∃ once, add_conflict self day period = Ok once ∧
                  (day, period) ∈ _all_conflicts once) as (once & Hadd & Hin).
  { unfold add_conflict. apply validate_period_Ok in Hp as ->. simpl.
    case_bool_decide as Hin; [by exists self|].
    unfold dict_lookup.
    destruct (dict_get_Some_keys day (conflicts self)) as [periods ->];
      [by rewrite Hkeys|]. simpl.
    case_bool_decide; eexists; (split; [done|]); simpl;
      by apply elem_of_union_l, elem_of_singleton. }
  exists once. split; [done|].
  unfold add_conflict. apply validate_period_Ok in Hp as ->. simpl.
  by rewrite bool_decide_eq_true_2.
Qed.

(** C4: after any sequence of [add_conflict] calls on a new record, with
    weekdays among the five and periods in 1..8 in any order, every
    weekday's period list is strictly ascending and free of duplicates. *)
Theorem add_conflict_periods_strictly_ascending (cid g : string)
    (self : ClassInfo) (calls : list (string * Z)) :
  ClassInfo_init cid g = Ok self → Forall valid_call calls →
  ∃ self', add_conflicts calls self = Ok self' ∧
           ∀ day, day ∈ DAYS →
                  strictly_ascending (periods_of self' day) ∧
                  NoDup (periods_of self' day).
Proof.
  intros [Hwf _]%ClassInfo_init_well_formed Hcalls.
  destruct (add_conflicts_well_formed calls self Hwf Hcalls)
    as (self' & Hadd & Hkeys & Hvals).
  exists self'. split; [done|]. intros day Hday.
  rewrite Forall_forall in Hvals.
  destruct (Hvals (periods_of self' day)) as [Hasc _].
  { apply periods_of_values. by rewrite Hkeys. }
  split; [done|by apply strictly_ascending_NoDup].
Qed.

(** C7: [validate] raises a [ValidationError] on a record whose conflict
    lists are all empty. *)
Theorem validate_no_conflicts (self : ClassInfo) :
  Forall (fun periods => periods = []) (dict_values (conflicts self)) →
  is_validation_error (validate self).
Proof.
  intros Hempty. unfold validate.
  destruct (expected_grade_of _) as [eg|e] eqn:He; simpl.
  2: { by apply expected_grade_of_Raise in He as [->| ->]. }
  case_bool_decide; simpl; [|done].
  assert (existsb (fun periods : list Z => negb (Nat.eqb (length periods) 0))
                  (dict_values (conflicts self)) = false) as ->; [|done].
  induction Hempty as [|periods rest -> _ IH]; simpl; [done|by rewrite IH].
Qed.

(** C8: for a record built by [add_conflict] calls, [to_dict] lists the
    conflicts of Monday (1) to Friday (5) day by day with their recorded
    periods, so that [defaultConflicts] ascends by day and then by period. *)
Theorem to_dict_conflicts_by_day_then_period (cid g : string)
    (self : ClassInfo) (calls : list (string * Z)) :
  ClassInfo_init cid g = Ok self → Forall valid_call calls →
  ∃ self' d, add_conflicts calls self = Ok self' ∧ to_dict self' = Ok d ∧
             defaultConflicts d = conflicts_by_day self' ∧
             StronglySorted conflict_lt (defaultConflicts d).
Proof.
  intros [Hwf _]%ClassInfo_init_well_formed Hcalls.
  destruct (add_conflicts_well_formed calls self Hwf Hcalls)
    as (self' & Hadd & Hkeys & Hvals).
  exists self'. unfold to_dict, conflicts_by_day, periods_of.
  destruct (conflicts self') as [|[k1 l1] [|[k2 l2] [|[k3 l3] [|[k4 l4]
    [|[k5 l5] [|? ?]]]]]]; try done.
  injection Hkeys as -> -> -> -> ->. simpl.
  rewrite (to_dict_day "Monday" 1) by done. simpl.
  rewrite (to_dict_day "Tuesday" 2) by done. simpl.
  rewrite (to_dict_day "Wednesday" 3) by done. simpl.
  rewrite (to_dict_day "Thursday" 4) by done. simpl.
  rewrite (to_dict_day "Friday" 5) by done. simpl.
  eexists. split; [done|]. split; [done|]. simpl.
  split; [by rewrite !app_assoc, app_nil_r|].
  rewrite <-!app_assoc.
  pose proof (by_day_sorted [(1, l1); (2, l2); (3, l3); (4, l4); (5, l5)])
    as Hsorted.
  simpl in Hsorted. rewrite app_nil_r in Hsorted. apply Hsorted.
  - repeat constructor.
  - simpl in Hvals. eapply Forall_impl; [done|]. by intros ? [? _].
Qed.

(** C10: a record built by [add_conflict] calls never holds more than 8
    periods on a weekday, so [validate] cannot fail on the count. *)
Theorem add_conflict_at_most_eight_periods (cid g : string)
    (self : ClassInfo) (calls : list (string * Z)) :
  ClassInfo_init cid g = Ok self → Forall valid_call calls →
  ∃ self', add_conflicts calls self = Ok self' ∧
           (∀ day, day ∈ DAYS → (length (periods_of self' day) <= 8)%nat) ∧
           validate self' ≠ Raise (ValidationError TooManyConflicts).
Proof.
  intros [Hwf _]%ClassInfo_init_well_formed Hcalls.
  destruct (add_conflicts_well_formed calls self Hwf Hcalls)
    as (self' & Hadd & Hkeys & Hvals).
  assert (Forall (fun periods : list Z => (length periods <= 8)%nat)
                 (dict_values (conflicts self'))) as Hlen.
  { eapply Forall_impl; [done|]. intros periods [Hasc Hbound]. simpl in *.
    pose proof (strictly_ascending_length periods 1 8 Hasc Hbound). lia. }
  exists self'. split; [done|]. split; [|by apply validate_not_too_many].
  intros day Hday. rewrite Forall_forall in Hlen. apply Hlen.
  apply periods_of_values. by rewrite Hkeys.
Qed.

(** ** Record detection *)

(** C6: a line whose second word reads "9-999" opens no record and raises
    nothing, and with no active record it leaves the parser as it was: no
    record is registered and no conflict is added. *)
Theorem grade_nine_line_opens_no_record (line : list Word) (second : Word) :
  line !! 1%nat = Some second → strip (text second) = "9-999" →
  _extract_class_info line = Ok None ∧
  ∀ self : MasterScheduleParser, process_line (self, None) line = Ok (self, None).
Proof.
  intros Hsecond Hid.
  assert (_extract_class_info line = Ok None) as Hnone.
  { destruct line as [|first [|second' rest]]; try done.
    injection Hsecond as ->.
    unfold _extract_class_info, index. simpl. by rewrite Hid. }
  split; [done|]. intros self. unfold process_line. by rewrite Hnone.
Qed.

(** ** Conflict extraction *)

Lemma for_each_ext {A S : Type} (body body' : S → A → result S) (xs : list A) (s : S) :
  (∀ s x, body s x = body' s x) → for_each body xs s = for_each body' xs s.
Proof.
  intros Hext. revert s. induction xs as [|x xs IH]; intros s; simpl; [done|].
  rewrite Hext. destruct (body' s x); simpl; [apply IH|done].
Qed.

(** C9: the extractor as written and the extractor without the subject
    lookback return the same record, dedup set included, or raise alike,
    on every line, record, continuation flag and column set. *)
Theorem extract_conflicts_lookback_irrelevant (DAY_COLUMNS : list Q)
    (line : list Word) (class_info : ClassInfo) (continuation_line : bool) :
  _extract_conflicts DAY_COLUMNS line class_info continuation_line
  = _extract_conflicts_without_lookback DAY_COLUMNS line class_info continuation_line.
Proof.
  unfold _extract_conflicts, _extract_conflicts_without_lookback.
  destruct (is_empty line || is_empty DAY_COLUMNS); [done|].
  apply for_each_ext. intros s [i word].
  unfold extract_word, extract_word_without_lookback.
  destruct (search_period (text word)); [|done].
  destruct (find_day_column DAY_COLUMNS (x0 word)); [|done].
  destruct (index DAYS n); simpl; [|done].
  by destruct (truthy _).
Qed.

(** ** Column calibration *)

Lemma by_position_total (a b : string * Q) :
  by_position a b = true ∨ by_position b a = true.
Proof.
  unfold by_position. destruct (Qlt_le_dec (snd a) (snd b)) as [H|H].
  - left. apply Qle_bool_iff. lra.
  - right. by apply Qle_bool_iff.
Qed.

Lemma by_position_sorted (l : list (string * Q)) :
  StronglySorted by_position (sort_by by_position l).
Proof.
  apply Sorted_StronglySorted.
  - intros a b c Hab%Is_true_true%Qle_bool_iff Hbc%Is_true_true%Qle_bool_iff.
    apply Is_true_true, Qle_bool_iff. lra.
  - apply sort_by_sorted, by_position_total.
Qed.

Lemma day_positions_of_word (w : Word) :
  flat_map (fun day => if contains (lower day) (lower (text w))
                       then [(day, x0 w)] else []) DAYS
  = map (fun day => (day, x0 w)) (word_days w).
Proof.
  unfold word_days. induction DAYS as [|day days IH]; simpl; [done|].
  rewrite filter_cons. destruct (contains _ _); simpl; by rewrite IH.
Qed.

Lemma find_day_positions_word_days (words : list Word) :
  find_day_positions words
  = flat_map (fun w => map (fun day => (day, x0 w)) (word_days w)) words.
Proof.
  unfold find_day_positions. apply flat_map_ext. intros w.
  apply day_positions_of_word.
Qed.

Lemma find_day_positions_no_day (words : list Word) :
  Forall (fun w => word_days w = []) words → find_day_positions words = [].
Proof.
  rewrite find_day_positions_word_days.
  induction 1 as [|w words Hw _ IH]; simpl; [done|]. by rewrite Hw, IH.
Qed.

(** C5: with one header word per weekday, placed from left to right in the
    order Monday to Friday, and no other word holding a weekday name, the
    calibrated columns are the five header positions themselves. *)
Theorem calibrate_five_headers_literal (self : MasterScheduleParser) (page : Page)
    (mon tue wed thu fri : Word) (others : list Word) :
  DAY_COLUMNS self = [] →
  extract_words page 3 ≡ₚ [mon; tue; wed; thu; fri] ++ others →
  word_days mon = ["Monday"] → word_days tue = ["Tuesday"] →
  word_days wed = ["Wednesday"] → word_days thu = ["Thursday"] →
  word_days fri = ["Friday"] →
  Forall (fun w => word_days w = []) others →
  (x0 mon < x0 tue)%Q → (x0 tue < x0 wed)%Q → (x0 wed < x0 thu)%Q →
  (x0 thu < x0 fri)%Q →
  _calibrate_day_columns self page
  = Ok {| heap := heap self; classes := classes self;
          DAY_COLUMNS := [x0 mon; x0 tue; x0 wed; x0 thu; x0 fri] |}.
Proof.
  intros Hcols Hperm Hmon Htue Hwed Hthu Hfri Hothers H12 H23 H34 H45.
  unfold _calibrate_day_columns. rewrite Hcols. simpl.
  set (target := [("Monday", x0 mon); ("Tuesday", x0 tue); ("Wednesday", x0 wed);
                  ("Thursday", x0 thu); ("Friday", x0 fri)]).
  assert (find_day_positions (extract_words page 3) ≡ₚ target) as Hfound.
  { rewrite find_day_positions_word_days.
    rewrite (Permutation_flat_map _ Hperm), flat_map_app.
    rewrite <-(find_day_positions_word_days others).
    rewrite (find_day_positions_no_day _ Hothers).
    cbn [flat_map]. rewrite Hmon, Htue, Hwed, Hthu, Hfri.
    by rewrite app_nil_r. }
  assert (sort_by by_position (find_day_positions (extract_words page 3)) = target)
    as Hsorted.
  { apply (sorted_perm_unique by_position).
    - intros a b Ha Hb Hab%Is_true_true%Qle_bool_iff Hba%Is_true_true%Qle_bool_iff.
      rewrite sort_by_perm, Hfound in Ha, Hb. unfold target in Ha, Hb.
      repeat (apply elem_of_cons in Ha as [->|Ha]);
        try (by apply elem_of_nil in Ha);
        repeat (apply elem_of_cons in Hb as [->|Hb]);
        try (by apply elem_of_nil in Hb); try done; simpl in *; lra.
    - apply by_position_sorted.
    - unfold target.
      repeat (constructor; [|repeat constructor;
                apply Is_true_true, Qle_bool_iff; simpl; lra]).
      constructor.
    - by rewrite sort_by_perm. }
  unfold calibrate.
  destruct (find_day_positions (extract_words page 3)) as [|c cs] eqn:Hcands.
  { by apply Permutation_nil in Hfound. }
  simpl is_empty. cbv iota.
  rewrite Hsorted. reflexivity.
Qed.

(** *** Ascending lists of positions *)

Lemma ascending_snoc (l : list Q) (x : Q) :
  ascending l → (∀ y, last l = Some y → (y <= x)%Q) → ascending (l ++ [x]).
Proof.
  unfold ascending. induction 1 as [|a l Hl IH Ha]; simpl; intros Hlast.
  - repeat constructor.
  - constructor.
    + apply IH. intros y Hy. apply Hlast. rewrite last_cons. by rewrite Hy.
    + destruct Ha as [|b l' Hab]; simpl; constructor; [by apply Hlast|done].
Qed.

Lemma ascending_app_r (l1 l2 : list Q) : ascending (l1 ++ l2) → ascending l2.
Proof.
  unfold ascending. induction l1 as [|a l1 IH]; simpl; [done|].
  intros [H _]%Sorted_inv. by apply IH.
Qed.

Lemma ascending_take (n : nat) (l : list Q) : ascending l → ascending (take n l).
Proof.
  unfold ascending. intros Hl. revert n.
  induction Hl as [|a l Hl IH Ha]; intros [|n]; simpl; try constructor.
  - apply IH.
  - destruct Ha as [|b l' Hab]; [destruct n; constructor|].
    destruct n; simpl; by constructor.
Qed.

Lemma ascending_FIXED_POSITIONS : ascending FIXED_POSITIONS.
Proof. unfold ascending, FIXED_POSITIONS. repeat constructor; lra. Qed.

Lemma two_last {A : Type} (l : list A) :
  (2 <= length l)%nat → ∃ l0 b a, l = l0 ++ [b; a].
Proof.
  intros Hlen. rewrite <-(rev_involutive l). rewrite <-length_rev in Hlen.
  destruct (rev l) as [|a [|b r]]; simpl in Hlen; try lia.
  exists (rev r), b, a. simpl. by rewrite <-app_assoc.
Qed.

(** *** The two filling loops *)

Lemma fill_missing_length (idx : nat) (pos : Q) (fuel : nat) (l : list Q) :
  (idx - length l <= fuel)%nat →
  length (fill_missing fuel idx pos l) = (length l `max` idx)%nat.
Proof.
  revert l. induction fuel as [|fuel IH]; intros l Hfuel; simpl.
  - lia.
  - destruct (Nat.ltb_spec (length l) idx) as [Hlt|Hge]; [|lia].
    destruct (last l); rewrite IH; rewrite ?length_app; simpl; lia.
Qed.

Lemma fill_missing_ascending (idx : nat) (pos : Q) (fuel : nat) (l : list Q) :
  ascending l →
  (∀ y, last l = Some y → (y <= pos)%Q) →
  (l = [] → idx = 0%nat ∨ (150 <= pos)%Q) →
  ascending (fill_missing fuel idx pos l) ∧
  ∀ y, last (fill_missing fuel idx pos l) = Some y → (y <= pos)%Q.
Proof.
  revert l. induction fuel as [|fuel IH]; intros l Hasc Hlast Hfirst; simpl.
  - done.
  - destruct (Nat.ltb_spec (length l) idx) as [Hlt|Hge]; [|done].
    destruct (last l) as [prev|] eqn:Hl.
    + set (k := inject_Z (Z.of_nat idx - Z.of_nat (length l) + 1)).
      assert (1 <= k)%Q as Hk.
      { unfold k. change 1%Q with (inject_Z 1). rewrite <-Zle_Qle. lia. }
      specialize (Hlast prev eq_refl).
      assert (0 <= (pos - prev) / k)%Q as Hstep0.
      { apply Qle_shift_div_l; lra. }
      assert ((pos - prev) / k <= pos - prev)%Q as Hstep1.
      { apply Qle_shift_div_r; [lra|]. nra. }
      apply IH.
      * apply ascending_snoc; [done|]. intros y Hy.
        rewrite Hl in Hy. injection Hy as <-. lra.
      * intros y. rewrite last_snoc. intros [= <-]. lra.
      * by intros [_ [=]]%app_nil.
    + apply last_None in Hl as ->. simpl in *.
      set (k := inject_Z (Z.of_nat idx)).
      assert (0 < k)%Q as Hk.
      { unfold k. change 0%Q with (inject_Z 0). rewrite <-Zlt_Qlt. lia. }
      assert (150 <= pos)%Q as Hpos by (destruct Hfirst as [?|?]; [done|lia|done]).
      assert (pos - (pos - 150) / k * inject_Z (Z.of_nat idx - 0) == 150)%Q as Hnew.
      { rewrite Z.sub_0_r. fold k. field. lra. }
      apply IH.
      * repeat constructor.
      * intros y [= <-]. change (Z.of_nat 0) with 0%Z. rewrite Hnew. done.
      * done.
Qed.

Lemma day_order_title (day : string) :
  day ∈ DAYS → ∃ idx, day_order (title day) = Some idx ∧ day_order day = Some idx.
Proof.
  unfold DAYS. intros Hday.
  repeat (apply elem_of_cons in Hday as [->|Hday]); try by eexists.
  by apply elem_of_nil in Hday.
Qed.

Lemma place_day_length (l : list Q) (day : string) (pos : Q) (idx : nat) :
  day_order (title day) = Some idx →
  length (place_day l (day, pos)) = S (length l `max` idx).
Proof.
  intros Hidx. unfold place_day. rewrite Hidx, length_app, fill_missing_length by lia.
  simpl. lia.
Qed.

Lemma find_day_positions_days (words : list Word) :
  Forall (fun entry => fst entry ∈ DAYS) (find_day_positions words).
Proof.
  rewrite find_day_positions_word_days. apply Forall_forall. intros [day pos] Hin.
  apply list_elem_of_In, in_flat_map in Hin as (w & _ & Hin).
  apply in_map_iff in Hin as (d & [= <- _] & Hd). simpl.
  apply list_elem_of_In in Hd. unfold word_days in Hd.
  by apply list_elem_of_filter in Hd as [_ ?].
Qed.

Lemma fold_place_day_length (day_positions : list (string * Q)) (l : list Q) :
  Forall (fun entry => fst entry ∈ DAYS) day_positions →
  (length l + length day_positions <= length (fold_left place_day day_positions l))%nat.
Proof.
  intros Hdays. revert l.
  induction Hdays as [|[day pos] rest Hday _ IH]; intros l;
    cbn [fold_left length]; [lia|].
  destruct (day_order_title day Hday) as (idx & Hidx & _).
  specialize (IH (place_day l (day, pos))).
  rewrite (place_day_length _ _ _ idx Hidx) in IH. lia.
Qed.

Lemma fill_remaining_spec (fuel : nat) (l : list Q) :
  (2 <= length l)%nat → (5 <= length l + fuel)%nat →
  ∃ l', fill_remaining fuel l = Ok l' ∧ (5 <= length l')%nat ∧
        (ascending l → ascending l').
Proof.
  revert l. induction fuel as [|fuel IH]; intros l Hlen Hfuel; simpl.
  - exists l. split; [done|]. split; [lia|done].
  - destruct (Nat.ltb_spec (length l) 5) as [Hlt|Hge].
    2: { exists l. by split. }
    destruct (two_last l Hlen) as (l0 & b & a & ->).
    assert (is_empty (l0 ++ [b; a]) = false) as -> by by destruct l0.
    unfold index_from_end. rewrite rev_app_distr. simpl.
    destruct (IH ((l0 ++ [b; a]) ++ [(a + (a - b))%Q])) as (l' & Hl' & Hlen' & Hasc).
    { rewrite !length_app. simpl. lia. }
    { rewrite !length_app in *. simpl in *. lia. }
    exists l'. split; [done|]. split; [done|].
    intros Hl. apply Hasc. apply ascending_snoc; [done|].
    intros y. replace (l0 ++ [b; a]) with ((l0 ++ [b]) ++ [a])
      by by rewrite <-app_assoc.
    rewrite last_snoc. intros [= <-].
    apply ascending_app_r, Sorted_inv in Hl as [_ Hba].
    apply HdRel_inv in Hba. lra.
Qed.

Lemma fold_place_day_ascending (day_positions : list (string * Q)) (l : list Q) :
  Forall (fun entry => fst entry ∈ DAYS) day_positions →
  StronglySorted by_position day_positions →
  ascending l →
  (∀ y entry, last l = Some y → entry ∈ day_positions → (y <= snd entry)%Q) →
  (l = [] → leftmost_monday_or_from_150 day_positions) →
  ascending (fold_left place_day day_positions l).
Proof.
  intros Hdays. revert l.
  induction Hdays as [|[day pos] rest Hday _ IH];
    intros l Hpos Hasc Hlast Hfirst; cbn [fold_left]; [done|].
  simpl in Hday.
  apply StronglySorted_inv in Hpos as [Hpos Hpos1].
  destruct (day_order_title day Hday) as (idx & Hidx & Hidx').
  destruct (fill_missing_ascending idx pos idx l Hasc) as [Hfill Hfill_last].
  { intros y Hy. apply (Hlast y (day, pos) Hy). left. }
  { intros ->. destruct (Hfirst eq_refl) as [->|?]; [left|by right].
    by injection Hidx' as <-. }
  apply IH; try done.
  - unfold place_day. rewrite Hidx. by apply ascending_snoc.
  - unfold place_day. rewrite Hidx, last_snoc. intros y entry [= <-] Hin.
    rewrite Forall_forall in Hpos1. specialize (Hpos1 entry Hin).
    by apply Is_true_true, Qle_bool_iff in Hpos1.
  - unfold place_day. rewrite Hidx. by intros [_ [=]]%app_nil.
Qed.

(** C2, amended: unless the only day-header candidate of the page is a
    single Monday, calibration returns exactly 5 positions, by
    interpolation, extrapolation or the fixed fallback; they ascend when
    the leftmost candidate is a Monday or lies at 150 or right of it,
    whatever the order of the weekdays. *)
Theorem calibrate_five_columns (self : MasterScheduleParser) (page : Page) :
  DAY_COLUMNS self = [] →
  (∀ pos, find_day_positions (extract_words page 3) ≠ [("Monday", pos)]) →
  ∃ columns,
    _calibrate_day_columns self page
    = Ok {| heap := heap self; classes := classes self; DAY_COLUMNS := columns |} ∧
    length columns = 5%nat ∧
    (leftmost_monday_or_from_150
       (sort_by by_position (find_day_positions (extract_words page 3))) →
     ascending columns).
Proof.
  intros Hcols Hlone. unfold _calibrate_day_columns, calibrate.
  rewrite Hcols. cbn [is_empty negb].
  pose proof (find_day_positions_days (extract_words page 3)) as Hdays.
  destruct (find_day_positions (extract_words page 3)) as [|c cs] eqn:Hfound.
  { exists FIXED_POSITIONS. split; [done|]. split; [done|].
    intros _. apply ascending_FIXED_POSITIONS. }
  cbn [is_empty].
  set (day_positions := sort_by by_position (c :: cs)).
  assert (Forall (fun entry => fst entry ∈ DAYS) day_positions) as Hdays'.
  { unfold day_positions. by rewrite sort_by_perm. }
  assert (2 <= length (fold_left place_day day_positions []))%nat as Hlen.
  { destruct cs as [|c' cs].
    - destruct c as [day pos]. apply Forall_cons in Hdays as [Hday _].
      simpl in Hday. unfold day_positions, DAYS in *.
      repeat (apply elem_of_cons in Hday as [->|Hday]);
        [by destruct (Hlone pos)|simpl; lia..|by apply elem_of_nil in Hday].
    - pose proof (fold_place_day_length day_positions [] Hdays') as Hge.
      unfold day_positions in Hge at 1.
      rewrite (Permutation_length (sort_by_perm _ _)) in Hge. simpl in Hge. lia. }
  destruct (fill_remaining_spec 5 _ Hlen) as (l' & -> & Hlen' & Hasc); [lia|].
  exists (take 5 l'). split; [done|]. split; [rewrite length_take; lia|].
  intros Hfirst. apply ascending_take, Hasc.
  apply fold_place_day_ascending; try done.
  - apply by_position_sorted.
  - constructor.
Qed.

(** C2 as stated fails: a lone Tuesday header at x = 100 calibrates to
    five descending positions. *)
Lemma calibrate_lone_tuesday_descends :
  _calibrate_day_columns MasterScheduleParser_init lone_tuesday_page
  = Ok {| heap := []; classes := [];
          DAY_COLUMNS := [150; 100; 50; 0; -50]%Q |} ∧
  ¬ ascending [150; 100; 50; 0; -50]%Q.
Proof.
  split; [reflexivity|].
  intros [_ H%HdRel_inv]%Sorted_inv. revert H. apply Qlt_not_le. reflexivity.
Qed.

(** A lone Monday header leaves one position to extrapolate from, and the
    forward fill reads the one before it. *)
Lemma calibrate_lone_monday_raises :
  _calibrate_day_columns MasterScheduleParser_init lone_monday_page
  = Raise IndexError.
Proof. reflexivity. Qed.

(** ** Duplicate class identifiers *)

Lemma no_duplicate_error_bind {A B : Type} (m : result A) (k : A → result B) :
  no_duplicate_error m → (∀ a, m = Ok a → no_duplicate_error (k a)) →
  no_duplicate_error (m ≫= k).
Proof.
  unfold no_duplicate_error. destruct m as [a|e]; simpl.
  - intros _ Hk. by apply Hk.
  - intros Hm _ [= ->]. by apply Hm.
Qed.

Lemma no_duplicate_error_for_each {A S : Type} (body : S → A → result S)
    (xs : list A) (s : S) :
  (∀ s x, no_duplicate_error (body s x)) → no_duplicate_error (for_each body xs s).
Proof.
  intros Hbody. revert s. induction xs as [|x xs IH]; intros s; simpl; [done|].
  apply no_duplicate_error_bind; [done|]. intros. apply IH.
Qed.

Ltac no_duplicate :=
  repeat first
    [ done
    | apply no_duplicate_error_bind; [|intros ? _]
    | apply no_duplicate_error_for_each; intros ? ?
    | progress unfold dict_lookup, index, index_from_end
    | case_match ].

Lemma add_conflict_no_duplicate_error (self : ClassInfo) (day : string) (p : Z) :
  no_duplicate_error (add_conflict self day p).
Proof. unfold add_conflict, validate_period. no_duplicate. Qed.

Lemma validate_no_duplicate_error (self : ClassInfo) :
  no_duplicate_error (validate self).
Proof.
  unfold validate. apply no_duplicate_error_bind.
  { intros [?|?]%expected_grade_of_Raise; congruence. }
  intros eg _. no_duplicate.
Qed.

Lemma calibrate_no_duplicate_error (words : list Word) :
  no_duplicate_error (calibrate words).
Proof.
  unfold calibrate. case_match; [done|].
  apply no_duplicate_error_bind; [|done].
  generalize (fold_left place_day (sort_by by_position (find_day_positions words)) []).
  generalize 5%nat. intros fuel.
  induction fuel as [|fuel IH]; intros l; simpl; [done|]. no_duplicate.
Qed.

Lemma process_line_no_duplicate_error (st : MasterScheduleParser * option nat)
    (line : list Word) :
  no_duplicate_error (process_line st line).
Proof.
  destruct st as [self current]. unfold process_line.
  apply no_duplicate_error_bind.
  { unfold _extract_class_info, ClassInfo_init, validate_class_id,
      validate_grade_level. no_duplicate. }
  intros class_info _.
  repeat case_match; simplify_eq; try done;
    (apply no_duplicate_error_bind; [unfold index; by case_match|]);
    intros obj _; (apply no_duplicate_error_bind; [|done]);
    unfold _extract_conflicts; (case_match; [done|]);
    apply no_duplicate_error_for_each; intros s [i word]; unfold extract_word;
    repeat case_match; try done;
    (apply no_duplicate_error_bind; [unfold index; by case_match|]);
    intros; repeat case_match; apply add_conflict_no_duplicate_error.
Qed.

Lemma dict_set_keys_NoDup {V : Type} (k : string) (v : V) (d : list (string * V)) :
  NoDup (dict_keys d) → NoDup (dict_keys (dict_set k v d)).
Proof.
  destruct (decide (k ∈ dict_keys d)) as [Hin|Hnin].
  - by rewrite dict_set_keys.
  - assert (dict_keys (dict_set k v d) = dict_keys d ++ [k]) as ->.
    { induction d as [|[k' v'] d IH]; simpl in *; [done|].
      apply not_elem_of_cons in Hnin as [Hne Hnin].
      apply String.eqb_neq in Hne as ->. simpl. by rewrite IH. }
    intros Hnd. apply NoDup_app. split; [done|]. split; [|apply NoDup_singleton].
    by intros x Hx ->%list_elem_of_singleton.
Qed.

Lemma process_line_keys_NoDup (st st' : MasterScheduleParser * option nat)
    (line : list Word) :
  NoDup (dict_keys (classes (fst st))) → process_line st line = Ok st' →
  NoDup (dict_keys (classes (fst st'))).
Proof.
  destruct st as [self current]. unfold process_line. simpl.
  intros Hnd (class_info & _ & Hrest)%bind_Ok.
  destruct class_info as [class_info|]; simpl in Hrest.
  - apply bind_Ok in Hrest as (obj & _ & (obj' & _ & [= <-])%bind_Ok).
    simpl. by apply dict_set_keys_NoDup.
  - destruct current as [ref|].
    + apply bind_Ok in Hrest as (obj & _ & (obj' & _ & [= <-])%bind_Ok). done.
    + by injection Hrest as <-.
Qed.

Lemma for_each_preserves {A S : Type} (I : S → Prop) (body : S → A → result S)
    (xs : list A) (s s' : S) :
  (∀ s x s', I s → body s x = Ok s' → I s') →
  I s → for_each body xs s = Ok s' → I s'.
Proof.
  intros Hbody. revert s. induction xs as [|x xs IH]; intros s Hs; simpl.
  - by intros [= <-].
  - intros (s1 & Hs1 & Hrest)%bind_Ok. eapply IH; [|done]. by eapply Hbody.
Qed.

(** The uniqueness loop of [_validate_results] walks the keys of a
    dictionary, which are distinct, so it finds no duplicate. *)
Lemma unique_keys_pass (keys : list string) (class_ids : gset string) :
  NoDup keys → (∀ k, k ∈ keys → k ∉ class_ids) →
  for_each (fun (class_ids : gset string) class_id =>
              if bool_decide (class_id ∈ class_ids)
              then Raise (ValidationError DuplicateClassIdentifier)
              else Ok ({[class_id]} ∪ class_ids))
           keys class_ids
  = Ok (list_to_set keys ∪ class_ids).
Proof.
  intros Hnd. revert class_ids.
  induction Hnd as [|k keys Hk Hnd IH]; intros class_ids Hfresh; simpl.
  - f_equal. by rewrite (left_id_L ∅ (∪)).
  - rewrite bool_decide_eq_false_2 by (apply Hfresh; left). simpl.
    rewrite IH.
    + f_equal. rewrite (comm_L (∪) {[k]} (list_to_set keys)).
      by rewrite (assoc_L (∪)).
    + intros k' Hk' [->%elem_of_singleton|Hin]%elem_of_union; [done|].
      by apply (Hfresh k'); [right|].
Qed.

(** No document makes [parse] end with the duplicate-identifier error:
    registering a record under an identifier already present replaces the
    entry, and the check at the end only sees the keys that are left. *)
Lemma parse_never_reports_duplicate (pages : list Page) :
  no_duplicate_error (parse pages).
Proof.
  unfold parse.
  set (body := fun (self : MasterScheduleParser) (page : Page) => _).
  apply no_duplicate_error_bind.
  { apply no_duplicate_error_for_each. intros self page. unfold body.
    apply no_duplicate_error_bind.
    - case_match; [|done]. unfold _calibrate_day_columns. case_match; [done|].
      apply no_duplicate_error_bind; [apply calibrate_no_duplicate_error|done].
    - intros self' _. unfold _process_page.
      apply no_duplicate_error_bind; [|done].
      apply no_duplicate_error_for_each. intros. apply process_line_no_duplicate_error. }
  intros self Hself.
  assert (NoDup (dict_keys (classes self))) as Hnd.
  { revert Hself.
    apply (for_each_preserves (fun s => NoDup (dict_keys (classes s))));
      [|simpl; constructor].
    intros s page s' Hs. unfold body.
    intros (s1 & Hs1 & Hpage)%bind_Ok.
    assert (classes s1 = classes s) as Hsame.
    { destruct (is_empty (DAY_COLUMNS s)); [|by injection Hs1 as <-].
      unfold _calibrate_day_columns in Hs1.
      destruct (negb _); [by injection Hs1 as <-|].
      by apply bind_Ok in Hs1 as (? & _ & [= <-]). }
    unfold _process_page in Hpage.
    apply bind_Ok in Hpage as ([s2 cur] & Hlines & [= <-]).
    revert Hlines.
    apply (for_each_preserves (fun st => NoDup (dict_keys (classes (fst st))))).
    - intros. by eapply process_line_keys_NoDup.
    - simpl. by rewrite Hsame. }
  apply no_duplicate_error_bind.
  - unfold _validate_results. rewrite unique_keys_pass; [|done|set_solver].
    simpl. apply no_duplicate_error_for_each. intros [] ref.
    apply no_duplicate_error_bind; [unfold index; by case_match|].
    intros. apply validate_no_duplicate_error.
  - intros _ _. apply no_duplicate_error_for_each. intros acc [cid ref].
    apply no_duplicate_error_bind; [unfold index; by case_match|done].
Qed.

(** C1, on the code: two pages each open a record "PK207"; [parse] returns
    normally, with the one record of the second page, and the conflict of
    the first page (Tuesday, period 2) is gone. *)
Theorem parse_duplicate_class_id_overwrites :
  ∃ record,
    parse [first_page; second_page] = Ok [("PK207", record)] ∧
    conflicts record = [("Monday", [3]); ("Tuesday", []); ("Wednesday", []);
                        ("Thursday", []); ("Friday", [])].
Proof. eexists. split; vm_compute; reflexivity. Qed.

(** ** The loop bounds are enough *)

(** [fill_missing] stops on its loop condition, not on its bound: any bound
    of at least [idx - len(ordered_positions)] gives the same list. *)
Lemma fill_missing_fuel (idx : nat) (pos : Q) (fuel fuel' : nat) (l : list Q) :
  (idx - length l <= fuel)%nat → (idx - length l <= fuel')%nat →
  fill_missing fuel idx pos l = fill_missing fuel' idx pos l.
Proof.
  revert fuel' l. induction fuel as [|fuel IH]; intros fuel' l Hfuel Hfuel'.
  - destruct fuel' as [|fuel']; simpl; [done|].
    destruct (Nat.ltb_spec (length l) idx); [lia|done].
  - simpl. destruct (Nat.ltb_spec (length l) idx) as [Hlt|Hge].
    + destruct fuel' as [|fuel']; [lia|]. simpl.
      destruct (Nat.ltb_spec (length l) idx); [|lia].
      destruct (last l); apply IH; rewrite length_app; simpl; lia.
    + destruct fuel' as [|fuel']; simpl; [done|].
      destruct (Nat.ltb_spec (length l) idx); [lia|done].
Qed.

(** Likewise for [fill_remaining] and any bound of at least
    [5 - len(ordered_positions)]; five always is. *)
Lemma fill_remaining_fuel (fuel fuel' : nat) (l : list Q) :
  (5 - length l <= fuel)%nat → (5 - length l <= fuel')%nat →
  fill_remaining fuel l = fill_remaining fuel' l.
Proof.
  revert fuel' l. induction fuel as [|fuel IH]; intros fuel' l Hfuel Hfuel'.
  - destruct fuel' as [|fuel']; simpl; [done|].
    destruct (Nat.ltb_spec (length l) 5); [lia|done].
  - simpl. destruct (Nat.ltb_spec (length l) 5) as [Hlt|Hge].
    + destruct fuel' as [|fuel']; [lia|]. simpl.
      destruct (Nat.ltb_spec (length l) 5); [|lia].
      destruct (is_empty l); [apply IH; simpl; lia|].
      destruct (index_from_end l 1) as [last_pos|]; simpl; [|done].
      destruct (index_from_end l 2) as [before_last|]; simpl; [|done].
      apply IH; rewrite length_app; simpl; lia.
    + destruct fuel' as [|fuel']; simpl; [done|].
      destruct (Nat.ltb_spec (length l) 5); [lia|done].
Qed.

(** ** The scenarios of the specification *)

(** Scenarios A and B: "Tech 2" under Tuesday on the line that opens
    "PK207", then the continuation line "Lib 3" under Monday. *)
Example parse_scenarios_A_B :
  ∃ record,
    parse [scenario_page] = Ok [("PK207", record)] ∧
    grade_level record = "Pre-K" ∧
    conflicts record = [("Monday", [3]); ("Tuesday", [2]); ("Wednesday", []);
                        ("Thursday", []); ("Friday", [])].
Proof. eexists. repeat split; vm_compute; reflexivity. Qed.

(** ** The theorems at sample inputs *)

Lemma add_conflict_idempotent_witness :
  ∃ once, add_conflict sample_record "Tuesday" 2 = Ok once ∧
          add_conflict once "Tuesday" 2 = Ok once.
Proof.
  apply add_conflict_idempotent.
  - reflexivity.
  - unfold DAYS. repeat constructor.
  - lia.
Defined.

Lemma sample_calls_valid : Forall valid_call sample_calls.
Proof.
  unfold sample_calls, valid_call, DAYS.
  repeat (apply Forall_cons; split; [split; [repeat constructor|simpl; lia]|]).
  apply Forall_nil_2.
Defined.

Lemma add_conflict_periods_strictly_ascending_witness :
  ∃ self', add_conflicts sample_calls sample_record = Ok self' ∧
           ∀ day, day ∈ DAYS →
                  strictly_ascending (periods_of self' day) ∧
                  NoDup (periods_of self' day).
Proof.
  apply (add_conflict_periods_strictly_ascending "PK207" "Pre-K").
  - reflexivity.
  - exact sample_calls_valid.
Defined.

Lemma validate_no_conflicts_witness : is_validation_error (validate sample_record).
Proof.
  apply validate_no_conflicts. unfold sample_record. simpl.
  repeat constructor.
Defined.

Lemma to_dict_conflicts_by_day_then_period_witness :
  ∃ self' d, add_conflicts sample_calls sample_record = Ok self' ∧
             to_dict self' = Ok d ∧
             defaultConflicts d = conflicts_by_day self' ∧
             StronglySorted conflict_lt (defaultConflicts d).
Proof.
  apply (to_dict_conflicts_by_day_then_period "PK207" "Pre-K").
  - reflexivity.
  - exact sample_calls_valid.
Defined.

Lemma add_conflict_at_most_eight_periods_witness :
  ∃ self', add_conflicts sample_calls sample_record = Ok self' ∧
           (∀ day, day ∈ DAYS → (length (periods_of self' day) <= 8)%nat) ∧
           validate self' ≠ Raise (ValidationError TooManyConflicts).
Proof.
  apply (add_conflict_at_most_eight_periods "PK207" "Pre-K").
  - reflexivity.
  - exact sample_calls_valid.
Defined.

Lemma grade_nine_line_opens_no_record_witness :
  _extract_class_info grade_nine_line = Ok None ∧
  ∀ self : MasterScheduleParser,
    process_line (self, None) grade_nine_line = Ok (self, None).
Proof.
  apply (grade_nine_line_opens_no_record grade_nine_line
           {| text := " 9-999 "; x0 := 60; top := 50 |}).
  - reflexivity.
  - reflexivity.
Defined.

Lemma calibrate_five_headers_literal_witness :
  _calibrate_day_columns MasterScheduleParser_init first_page
  = Ok {| heap := []; classes := [];
          DAY_COLUMNS := [150; 250; 350; 450; 550]%Q |}.
Proof.
  apply (calibrate_five_headers_literal MasterScheduleParser_init first_page
           {| text := "Monday"; x0 := 150; top := 10 |}
           {| text := "Tuesday"; x0 := 250; top := 10 |}
           {| text := "Wednesday"; x0 := 350; top := 10 |}
           {| text := "Thursday"; x0 := 450; top := 10 |}
           {| text := "Friday"; x0 := 550; top := 10 |}
           [{| text := "001"; x0 := 20; top := 50 |};
            {| text := "PK207"; x0 := 60; top := 50 |};
            {| text := "Tech"; x0 := 230; top := 50 |};
            {| text := "2"; x0 := 250; top := 50 |}]).
  - reflexivity.
  - reflexivity.
  - reflexivity.
  - reflexivity.
  - reflexivity.
  - reflexivity.
  - reflexivity.
  - repeat constructor.
  - reflexivity.
  - reflexivity.
  - reflexivity.
  - reflexivity.
Defined.

Lemma calibrate_five_columns_witness :
  ∃ columns,
    _calibrate_day_columns MasterScheduleParser_init out_of_order_page
    = Ok {| heap := []; classes := []; DAY_COLUMNS := columns |} ∧
    length columns = 5%nat ∧
    (leftmost_monday_or_from_150
       (sort_by by_position
                (find_day_positions (extract_words out_of_order_page 3))) →
     ascending columns).
Proof.
  apply (calibrate_five_columns MasterScheduleParser_init out_of_order_page).
  - reflexivity.
  - intros pos. vm_compute. discriminate.
Defined.

(** * Further properties *)

(** ** What [add_conflict] records *)

Lemma sort_elem_of (l : list Z) (x : Z) : x ∈ sort l ↔ x ∈ l.
Proof. unfold sort. by rewrite sort_by_perm. Qed.

Lemma strictly_ascending_ext (l l' : list Z) :
  strictly_ascending l → strictly_ascending l' → (∀ x, x ∈ l ↔ x ∈ l') → l = l'.
Proof.
  intros Hl Hl' Hext. apply (sorted_perm_unique Z.lt); try done.
  - intros a b _ _ ? ?. lia.
  - apply NoDup_Permutation; [by apply strictly_ascending_NoDup..|done].
Qed.

Lemma periods_of_dict_set (self : ClassInfo) (day day' : string) (periods : list Z)
    (all' : gset (string * Z)) :
  periods_of {| class_id := class_id self; grade_level := grade_level self;
                conflicts := dict_set day periods (conflicts self);
                _all_conflicts := all' |} day'
  = if decide (day' = day) then periods else periods_of self day'.
Proof.
  unfold periods_of. simpl. case_decide as Heq.
  - subst. by rewrite dict_get_set_eq.
  - by rewrite dict_get_set_ne.
Qed.

(** One call on a well-formed record whose set and lists agree. *)
Lemma add_conflict_tracks (self : ClassInfo) (day : string) (period : Z) :
  well_formed self → tracks self → day ∈ DAYS → 1 <= period <= 8 →
  ∃ self', add_conflict self day period = Ok self' ∧
           well_formed self' ∧ tracks self' ∧
           _all_conflicts self' = {[(day, period)]} ∪ _all_conflicts self ∧
           class_id self' = class_id self ∧ grade_level self' = grade_level self.
Proof.
  intros Hwf Htr Hday Hp.
  destruct (add_conflict_well_formed self day period Hwf Hday Hp)
    as (self' & Hadd & Hwf' & _).
  exists self'. split; [done|]. split; [done|].
  revert Hadd. unfold add_conflict.
  apply validate_period_Ok in Hp as ->. simpl.
  case_bool_decide as Hin.
  { intros [= <-]. split; [done|]. split; [|done].
    apply set_eq. intros c. rewrite elem_of_union, elem_of_singleton.
    split; [by right|]. by intros [-> | ?]. }
  unfold dict_lookup. destruct (dict_get day (conflicts self)) as [periods|] eqn:Hget;
    simpl; [|done].
  assert (periods_of self day = periods) as Hperiods
    by (unfold periods_of; by rewrite Hget).
  case_bool_decide as Hmem.
  { contradict Hin. apply Htr. by rewrite Hperiods. }
  intros [= <-]. simpl. split; [|done].
  intros day' p. rewrite periods_of_dict_set. cbn [_all_conflicts].
  rewrite elem_of_union, elem_of_singleton.
  case_decide as Heq.
  - subst day'. rewrite sort_elem_of, elem_of_app, list_elem_of_singleton.
    rewrite (Htr day p), Hperiods. split.
    + intros [[= ->]|?]; [by right|by left].
    + intros [? | ->]; [by right|by left].
  - rewrite (Htr day' p). split; [|by right]. by intros [[= -> ->]|?].
Qed.

Lemma add_conflicts_tracks (calls : list (string * Z)) (self : ClassInfo) :
  well_formed self → tracks self → Forall valid_call calls →
  ∃ self', add_conflicts calls self = Ok self' ∧
           well_formed self' ∧ tracks self' ∧
           _all_conflicts self' = list_to_set calls ∪ _all_conflicts self ∧
           class_id self' = class_id self ∧ grade_level self' = grade_level self.
Proof.
  intros Hwf Htr Hcalls. revert self Hwf Htr.
  induction Hcalls as [|[day p] calls [Hday Hp] _ IH]; intros self Hwf Htr.
  - exists self. split; [done|]. split; [done|]. split; [done|].
    split; [|done]. simpl. by rewrite (left_id_L ∅ (∪)).
  - destruct (add_conflict_tracks self day p Hwf Htr Hday Hp)
      as (self1 & Hadd & Hwf1 & Htr1 & Hall1 & Hid1 & Hg1).
    destruct (IH self1 Hwf1 Htr1) as (self' & Hrest & Hwf' & Htr' & Hall' & Hid' & Hg').
    exists self'. unfold add_conflicts in *. simpl. rewrite Hadd. simpl.
    split; [done|]. split; [done|]. split; [done|].
    split; [|by rewrite Hid', Hg'].
    rewrite Hall', Hall1. simpl. apply set_eq. intros call.
    rewrite !elem_of_union. tauto.
Qed.

Lemma new_record_tracks (cid g : string) (self : ClassInfo) :
  ClassInfo_init cid g = Ok self → tracks self.
Proof.
  unfold ClassInfo_init.
  intros (_ & _ & (_ & _ & [= <-])%bind_Ok)%bind_Ok day p.
  unfold periods_of. simpl. rewrite elem_of_empty.
  repeat case_match; simpl; by rewrite ?elem_of_nil.
Qed.

(** After any calls on a new record, a weekday's list holds a period
    exactly when one of the calls added it for that day, whatever the
    order and however often. *)
Theorem add_conflicts_records_exactly_the_calls (cid g : string)
    (self : ClassInfo) (calls : list (string * Z)) :
  ClassInfo_init cid g = Ok self → Forall valid_call calls →
  ∃ self', add_conflicts calls self = Ok self' ∧
           (∀ day p, p ∈ periods_of self' day ↔ (day, p) ∈ calls) ∧
           _all_conflicts self' = list_to_set calls.
Proof.
  intros Hinit Hcalls.
  destruct (ClassInfo_init_well_formed _ _ _ Hinit) as (Hwf & _ & _ & Hall).
  destruct (add_conflicts_tracks calls self Hwf (new_record_tracks _ _ _ Hinit) Hcalls)
    as (self' & Hadd & _ & Htr & Hall' & _).
  rewrite Hall, (right_id_L ∅ (∪)) in Hall'.
  exists self'. split; [done|]. split; [|done].
  intros day p. by rewrite <-(Htr day p), Hall', elem_of_list_to_set.
Qed.

Lemma well_formed_conflicts_ext (a b : ClassInfo) :
  well_formed a → well_formed b →
  (∀ day p, p ∈ periods_of a day ↔ p ∈ periods_of b day) →
  conflicts a = conflicts b.
Proof.
  intros [Hka Hva] [Hkb Hvb] Hext.
  assert (∀ day, day ∈ DAYS → periods_of a day = periods_of b day) as Heq.
  { intros day Hday. apply strictly_ascending_ext; [| |apply Hext].
    - rewrite Forall_forall in Hva.
      apply (Hva (periods_of a day)), periods_of_values. by rewrite Hka.
    - rewrite Forall_forall in Hvb.
      apply (Hvb (periods_of b day)), periods_of_values. by rewrite Hkb. }
  unfold periods_of, DAYS in *.
  destruct (conflicts a) as [|[a1 la1] [|[a2 la2] [|[a3 la3] [|[a4 la4]
    [|[a5 la5] [|? ?]]]]]]; try done.
  destruct (conflicts b) as [|[b1 lb1] [|[b2 lb2] [|[b3 lb3] [|[b4 lb4]
    [|[b5 lb5] [|? ?]]]]]]; try done.
  injection Hka as -> -> -> -> ->. injection Hkb as -> -> -> -> ->.
  pose proof (Heq "Monday") as H1. pose proof (Heq "Tuesday") as H2.
  pose proof (Heq "Wednesday") as H3. pose proof (Heq "Thursday") as H4.
  pose proof (Heq "Friday") as H5. simpl in *.
  rewrite H1, H2, H3, H4, H5; [done|repeat constructor..].
Qed.

(** The order and the repetitions of the calls do not matter: two lists
    of calls that add the same pairs leave the same record. *)
Theorem add_conflicts_order_irrelevant (cid g : string) (self : ClassInfo)
    (calls calls' : list (string * Z)) :
  ClassInfo_init cid g = Ok self → Forall valid_call calls →
  (∀ call, call ∈ calls ↔ call ∈ calls') →
  ∃ self', add_conflicts calls self = Ok self' ∧
           add_conflicts calls' self = Ok self'.
Proof.
  intros Hinit Hcalls Hsame.
  assert (Forall valid_call calls') as Hcalls'.
  { rewrite Forall_forall in *. intros call Hin. by apply Hcalls, Hsame. }
  destruct (ClassInfo_init_well_formed _ _ _ Hinit) as (Hwf & _ & _ & Hall).
  pose proof (new_record_tracks _ _ _ Hinit) as Htr.
  destruct (add_conflicts_tracks calls self Hwf Htr Hcalls)
    as (a & Ha & Hwfa & Htra & Halla & Hida & Hga).
  destruct (add_conflicts_tracks calls' self Hwf Htr Hcalls')
    as (b & Hb & Hwfb & Htrb & Hallb & Hidb & Hgb).
  exists a. split; [done|]. rewrite Hb. f_equal.
  assert (_all_conflicts a = _all_conflicts b) as Hset.
  { rewrite Halla, Hallb. f_equal. apply set_eq. intros call.
    by rewrite !elem_of_list_to_set. }
  assert (conflicts a = conflicts b) as Hconf.
  { apply well_formed_conflicts_ext; try done. intros day p.
    by rewrite <-(Htra day p), <-(Htrb day p), Hset. }
  destruct a, b. simpl in *. congruence.
Qed.

(** ** The errors of [add_conflict] *)

(** [add_conflict] fails with "Invalid period number" exactly for a period
    outside 1..8, whatever the record and the day. *)
Theorem add_conflict_invalid_period (self : ClassInfo) (day : string) (period : Z) :
  add_conflict self day period = Raise (ValidationError InvalidPeriodNumber)
  ↔ ¬ (1 <= period <= 8).
Proof.
  unfold add_conflict. rewrite <-validate_period_Ok. unfold validate_period.
  destruct (bool_decide (period ∈ VALID_PERIODS)); simpl.
  - split; [|by intros []].
    unfold dict_lookup. repeat (case_match; simpl); by intros [=].
  - split; [|done]. by intros _ [=].
Qed.


(** ** What [to_dict] emits *)

Lemma to_dict_well_formed (self : ClassInfo) :
  well_formed self →
  to_dict self = Ok {| classNumber := class_id self; grade := grade_level self;
                       defaultConflicts := conflicts_by_day self; active := true |}.
Proof.
  intros [Hkeys _]. unfold to_dict, conflicts_by_day, periods_of.
  destruct (conflicts self) as [|[k1 l1] [|[k2 l2] [|[k3 l3] [|[k4 l4]
    [|[k5 l5] [|? ?]]]]]]; try done.
  injection Hkeys as -> -> -> -> ->. simpl.
  rewrite (to_dict_day "Monday" 1) by done. simpl.
  rewrite (to_dict_day "Tuesday" 2) by done. simpl.
  rewrite (to_dict_day "Wednesday" 3) by done. simpl.
  rewrite (to_dict_day "Thursday" 4) by done. simpl.
  rewrite (to_dict_day "Friday" 5) by done. simpl.
  by rewrite !app_assoc, app_nil_r.
Qed.

Lemma conflicts_by_day_sorted (self : ClassInfo) :
  well_formed self → StronglySorted conflict_lt (conflicts_by_day self).
Proof.
  intros [Hkeys Hvals].
  pose proof (by_day_sorted
                [(1, periods_of self "Monday"); (2, periods_of self "Tuesday");
                 (3, periods_of self "Wednesday"); (4, periods_of self "Thursday");
                 (5, periods_of self "Friday")]) as Hsorted.
  apply Hsorted.
  - simpl. repeat constructor.
  - simpl. rewrite Forall_forall in Hvals.
    repeat (constructor;
            [apply (Hvals (periods_of self _)), periods_of_values;
             rewrite Hkeys; unfold DAYS; repeat constructor|]).
    constructor.
Qed.

Lemma conflict_lt_sorted_NoDup (l : list Conflict) :
  StronglySorted conflict_lt l → NoDup l.
Proof.
  induction 1 as [|a l _ IH Ha]; constructor; [|done].
  rewrite Forall_forall in Ha. intros Hin.
  destruct (Ha a Hin) as [?|[_ ?]]; lia.
Qed.

Lemma DAY_MAP_lookup (day : string) (number : Z) :
  (day, number) ∈ DAY_MAP ↔ dict_get day DAY_MAP = Some number.
Proof.
  unfold DAY_MAP. split.
  - intros Hin. repeat (apply elem_of_cons in Hin as [[= -> ->]|Hin]; [done|]).
    by apply elem_of_nil in Hin.
  - simpl. repeat (case_match; [intros [= <-];
      match goal with H : String.eqb _ _ = true |- _ =>
        apply String.eqb_eq in H as -> end; repeat constructor|]).
    done.
Qed.

Lemma elem_of_conflicts_by_day (self : ClassInfo) (number p : Z) :
  {| dayOfWeek := number; period := p |} ∈ conflicts_by_day self
  ↔ ∃ day, dict_get day DAY_MAP = Some number ∧ p ∈ periods_of self day.
Proof.
  unfold conflicts_by_day. rewrite list_elem_of_In, in_flat_map. split.
  - intros ([day n] & Hday%list_elem_of_In & Hin%list_elem_of_In).
    apply list_elem_of_fmap in Hin as (q & [= -> ->] & Hq).
    exists day. split; [by apply DAY_MAP_lookup|done].
  - intros (day & Hday%DAY_MAP_lookup & Hp). exists (day, number).
    split; [by apply list_elem_of_In|].
    apply list_elem_of_In, list_elem_of_fmap. by exists p.
Qed.

(** For a record built by [add_conflict] calls, [to_dict] copies the
    identifier and the grade, sets [active], and emits one entry for each
    distinct pair that was added, with the weekday as its [DAY_MAP] number:
    no entry is missing, made up or repeated. *)
Theorem to_dict_emits_exactly_the_calls (cid g : string) (self : ClassInfo)
    (calls : list (string * Z)) :
  ClassInfo_init cid g = Ok self → Forall valid_call calls →
  ∃ self' d, add_conflicts calls self = Ok self' ∧ to_dict self' = Ok d ∧
             classNumber d = cid ∧ grade d = g ∧ active d = true ∧
             (∀ number p,
                {| dayOfWeek := number; period := p |} ∈ defaultConflicts d
                ↔ ∃ day, dict_get day DAY_MAP = Some number ∧ (day, p) ∈ calls) ∧
             NoDup (defaultConflicts d).
Proof.
  intros Hinit Hcalls.
  destruct (ClassInfo_init_well_formed _ _ _ Hinit) as (Hwf & Hid & Hg & Hall).
  destruct (add_conflicts_tracks calls self Hwf (new_record_tracks _ _ _ Hinit) Hcalls)
    as (self' & Hadd & Hwf' & Htr & Hall' & Hid' & Hg').
  rewrite Hall, (right_id_L ∅ (∪)) in Hall'.
  eexists self', _. split; [done|]. split; [by apply to_dict_well_formed|]. simpl.
  split; [congruence|]. split; [congruence|]. split; [done|]. split.
  - intros number p. rewrite elem_of_conflicts_by_day.
    apply exist_proper. intros day.
    by rewrite <-(Htr day p), Hall', elem_of_list_to_set.
  - by apply conflict_lt_sorted_NoDup, conflicts_by_day_sorted.
Qed.

(** Every entry [to_dict] emits for such a record has [dayOfWeek] in 1..5
    and [period] in 1..8. *)
Theorem to_dict_entries_in_range (cid g : string) (self : ClassInfo)
    (calls : list (string * Z)) :
  ClassInfo_init cid g = Ok self → Forall valid_call calls →
  ∃ self' d, add_conflicts calls self = Ok self' ∧ to_dict self' = Ok d ∧
             Forall (fun entry => 1 <= dayOfWeek entry <= 5 ∧
                                  1 <= period entry <= 8)
                    (defaultConflicts d).
Proof.
  intros [Hwf _]%ClassInfo_init_well_formed Hcalls.
  destruct (add_conflicts_well_formed calls self Hwf Hcalls) as (self' & Hadd & Hwf').
  eexists self', _. split; [done|]. split; [by apply to_dict_well_formed|]. simpl.
  apply Forall_forall. intros [number p] Hin.
  apply elem_of_conflicts_by_day in Hin as (day & Hday & Hp). simpl.
  split.
  - apply DAY_MAP_lookup in Hday. unfold DAY_MAP in Hday.
    repeat (apply elem_of_cons in Hday as [[= -> ->]|Hday]; [lia|]).
    by apply elem_of_nil in Hday.
  - destruct Hwf' as [Hkeys Hvals]. rewrite Forall_forall in Hvals.
    destruct (decide (day ∈ dict_keys (conflicts self'))) as [Hk|Hk].
    + destruct (Hvals _ (periods_of_values self' day Hk)) as [_ Hrange].
      rewrite Forall_forall in Hrange. by apply Hrange.
    + unfold periods_of in Hp.
      destruct (dict_get day (conflicts self')) as [l|] eqn:Hget; simpl in Hp;
        [|by apply elem_of_nil in Hp].
      destruct (Hvals l (dict_get_Some_values _ _ _ Hget)) as [_ Hrange].
      rewrite Forall_forall in Hrange. by apply Hrange.
Qed.

(** ** Class identifiers and grades *)

Lemma is_digit_plain (c : ascii) :
  is_digit c = true → c ≠ "P"%char ∧ c ≠ "K"%char ∧ c ≠ "/"%char ∧ c ≠ "-"%char.
Proof. destruct c as [[] [] [] [] [] [] [] []]; by intros [=]. Qed.

Lemma is_K_or_digit_cases (c : ascii) :
  is_K_or_digit c = true → c = "K"%char ∨ is_digit c = true.
Proof.
  unfold is_K_or_digit. intros [H|H]%orb_true_iff; [left|by right].
  by apply Ascii.eqb_eq in H.
Qed.

Lemma at_end_cases (s : string) :
  at_end s = true → s = EmptyString ∨ s = String "010" EmptyString.
Proof.
  destruct s as [|c [|? ?]]; simpl; try done; [by left|].
  intros ->%Ascii.eqb_eq. by right.
Qed.

Lemma three_digits_end_inv (s : string) :
  three_digits_end s = true →
  ∃ a b c tail, s = String a (String b (String c tail)) ∧
                is_digit a = true ∧ is_digit b = true ∧ is_digit c = true ∧
                (tail = EmptyString ∨ tail = String "010" EmptyString).
Proof.
  destruct s as [|a [|b [|c tail]]]; simpl; try done.
  intros [[[Ha Hb]%andb_true_iff Hc]%andb_true_iff Ht%at_end_cases]%andb_true_iff.
  by exists a, b, c, tail.
Qed.

Lemma match_prek_inv (s : string) :
  match_prek s = true →
  ∃ rest, s = String "P" (String "K" rest) ∧ three_digits_end rest = true.
Proof.
  destruct s as [|c1 [|c2 rest]]; try done.
  - by destruct c1 as [[] [] [] [] [] [] [] []].
  - destruct c1 as [[] [] [] [] [] [] [] []]; try done.
    destruct c2 as [[] [] [] [] [] [] [] []]; try done. simpl. by exists rest.
Qed.

Lemma match_kindergarten_inv (s : string) :
  match_kindergarten s = true →
  ∃ rest, s = String "K" (String "-" rest) ∧ three_digits_end rest = true.
Proof.
  destruct s as [|c1 [|c2 rest]]; try done.
  - by destruct c1 as [[] [] [] [] [] [] [] []].
  - destruct c1 as [[] [] [] [] [] [] [] []]; try done.
    destruct c2 as [[] [] [] [] [] [] [] []]; try done. simpl. by exists rest.
Qed.

Lemma match_single_grade_inv (s : string) :
  match_single_grade s = true →
  ∃ d rest, s = String d (String "-" rest) ∧ is_digit d = true ∧
            three_digits_end rest = true.
Proof.
  destruct s as [|d [|c2 rest]]; try done.
  destruct c2 as [[] [] [] [] [] [] [] []]; try done. simpl.
  intros [? ?]%andb_true_iff. by exists d, rest.
Qed.

Lemma match_multi_grade_inv (s : string) :
  match_multi_grade s = true →
  ∃ a b c rest,
    s = String a (String "/" (String b (String "/" (String c (String "-" rest))))) ∧
    is_K_or_digit a = true ∧ is_K_or_digit b = true ∧ is_K_or_digit c = true ∧
    three_digits_end rest = true.
Proof.
  destruct s as [|a [|s1 [|b [|s2 [|c [|s3 rest]]]]]]; try done;
    try (by destruct s1 as [[] [] [] [] [] [] [] []]).
  - destruct s1 as [[] [] [] [] [] [] [] []]; try done.
    by destruct s2 as [[] [] [] [] [] [] [] []].
  - destruct s1 as [[] [] [] [] [] [] [] []]; try done.
    by destruct s2 as [[] [] [] [] [] [] [] []].
  - destruct s1 as [[] [] [] [] [] [] [] []]; try done.
    destruct s2 as [[] [] [] [] [] [] [] []]; try done.
    destruct s3 as [[] [] [] [] [] [] [] []]; try done. simpl.
    intros [[[? ?]%andb_true_iff ?]%andb_true_iff ?]%andb_true_iff.
    by exists a, b, c, rest.
Qed.

Lemma matches_class_pattern_cases (s : string) :
  matches_class_pattern s = true →
  match_prek s = true ∨ match_kindergarten s = true ∨
  match_single_grade s = true ∨ match_multi_grade s = true.
Proof.
  unfold matches_class_pattern. simpl.
  destruct (match_prek s), (match_kindergarten s), (match_single_grade s),
    (match_multi_grade s); simpl; auto.
Qed.

Lemma prefix_cons_ne (a b : ascii) (s1 s2 : string) :
  a ≠ b → String.prefix (String a s1) (String b s2) = false.
Proof. intros Hne. simpl. by destruct (ascii_dec a b). Qed.

Lemma contains_cons (needle : string) (x : ascii) (s : string) :
  contains needle (String x s)
  = String.prefix needle (String x s) || contains needle s.
Proof. done. Qed.

Lemma contains_cons_ne (c x : ascii) (s : string) :
  c ≠ x → contains (String c EmptyString) (String x s) = contains (String c EmptyString) s.
Proof. intros Hne. cbn [contains]. by rewrite prefix_cons_ne. Qed.

Lemma contains_cons_eq (c : ascii) (s : string) :
  contains (String c EmptyString) (String c s) = true.
Proof.
  cbn [contains]. simpl. destruct (ascii_dec c c); [|done].
  by destruct s.
Qed.

Lemma split_nonempty (sep : ascii) (s : string) : split sep s ≠ [].
Proof. induction s as [|c s IH]; simpl; [done|]. by repeat case_match. Qed.

Lemma hd_split_cons_ne (sep c : ascii) (s : string) :
  c ≠ sep →
  hd EmptyString (split sep (String c s)) = String c (hd EmptyString (split sep s)).
Proof.
  intros Hne%Ascii.eqb_neq. simpl. rewrite Hne.
  pose proof (split_nonempty sep s). by destruct (split sep s).
Qed.

Lemma hd_split_cons_eq (sep : ascii) (s : string) :
  hd EmptyString (split sep (String sep s)) = EmptyString.
Proof. simpl. by rewrite Ascii.eqb_refl. Qed.

Lemma split_cons_ne (sep c : ascii) (s : string) :
  c ≠ sep →
  split sep (String c s)
  = String c (hd EmptyString (split sep s)) :: tl (split sep s).
Proof.
  intros Hne%Ascii.eqb_neq. simpl. rewrite Hne.
  pose proof (split_nonempty sep s). by destruct (split sep s).
Qed.

Lemma hd_split_digits (a b c : ascii) (tail : string) :
  is_digit a = true → is_digit b = true → is_digit c = true →
  tail = EmptyString ∨ tail = String "010" EmptyString →
  hd EmptyString (split "-" (String a (String b (String c tail))))
  = String a (String b (String c tail)).
Proof.
  intros (_ & _ & _ & Ha)%is_digit_plain (_ & _ & _ & Hb)%is_digit_plain
         (_ & _ & _ & Hc)%is_digit_plain Htail.
  rewrite !hd_split_cons_ne by done. by destruct Htail as [-> | ->].
Qed.

Lemma contains_slash_digits (a b c : ascii) (tail : string) :
  is_digit a = true → is_digit b = true → is_digit c = true →
  tail = EmptyString ∨ tail = String "010" EmptyString →
  contains "/" (String a (String b (String c tail))) = false.
Proof.
  intros (_ & _ & Ha & _)%is_digit_plain (_ & _ & Hb & _)%is_digit_plain
         (_ & _ & Hc & _)%is_digit_plain Htail.
  rewrite !contains_cons_ne by done. by destruct Htail as [-> | ->].
Qed.

(** After the pattern check of [_extract_class_info] the grade is never
    "unknown": the test for it rejects nothing. *)
Theorem determine_grade_level_of_valid_id (class_id : string) :
  matches_class_pattern class_id = true →
  _determine_grade_level class_id ≠ "unknown".
Proof.
  intros [H|[H|[H|H]]]%matches_class_pattern_cases.
  - apply match_prek_inv in H as (rest & -> & _). by destruct rest.
  - apply match_kindergarten_inv in H as (rest & -> & _). by destruct rest.
  - apply match_single_grade_inv in H as (d & rest & -> & Hd & Hrest).
    apply three_digits_end_inv in Hrest as (a & b & c & tail & -> & Ha & Hb & Hc & Ht).
    pose proof (is_digit_plain d Hd) as (HP & HK & Hslash & _).
    unfold _determine_grade_level, startswith.
    rewrite !prefix_cons_ne by done.
    rewrite contains_cons_ne by done. rewrite contains_cons_ne by done.
    rewrite contains_slash_digits by done. by rewrite Hd.
  - apply match_multi_grade_inv in H as (a & b & c & rest & -> & Ha & _).
    unfold _determine_grade_level, startswith.
    assert (a ≠ "P"%char) as HP.
    { apply is_K_or_digit_cases in Ha as [->|Ha]; [done|].
      by apply is_digit_plain in Ha as (? & _). }
    rewrite prefix_cons_ne by done.
    assert (String.prefix "K-" (String a (String "/" (String b (String "/"
              (String c (String "-" rest)))))) = false) as ->.
    { cbn [String.prefix]. destruct (ascii_dec "K" a); [|done].
      by destruct (ascii_dec "-" "/"). }
    assert (contains "/" (String a (String "/" (String b (String "/"
              (String c (String "-" rest)))))) = true) as ->; [|done].
    rewrite contains_cons, contains_cons_eq. by rewrite orb_true_r.
Qed.

Lemma ClassInfo_init_inv (cid g : string) (self : ClassInfo) :
  ClassInfo_init cid g = Ok self →
  matches_class_pattern cid = true ∧ g ∈ VALID_GRADES ∧
  self = {| class_id := cid; grade_level := g;
            conflicts := [("Monday", []); ("Tuesday", []); ("Wednesday", []);
                          ("Thursday", []); ("Friday", [])];
            _all_conflicts := ∅ |}.
Proof.
  unfold ClassInfo_init, validate_class_id, validate_grade_level.
  destruct (matches_class_pattern cid); simpl; [|done].
  case_bool_decide; simpl; [|done]. by intros [= <-].
Qed.

Lemma ClassInfo_init_Raise (cid g : string) (e : exn) :
  ClassInfo_init cid g = Raise e → ∃ why, e = ValidationError why.
Proof.
  unfold ClassInfo_init, validate_class_id, validate_grade_level.
  destruct (matches_class_pattern cid); simpl; [|intros [= <-]; by eexists].
  case_bool_decide; simpl; [done|]. intros [= <-]. by eexists.
Qed.

(** What a line that opens a record yields. *)
Lemma extract_class_info_Some (line : list Word) (self : ClassInfo) :
  _extract_class_info line = Ok (Some self) →
  ∃ second, line !! 1%nat = Some second ∧
            ClassInfo_init (strip (text second))
                           (_determine_grade_level (strip (text second)))
            = Ok self.
Proof.
  unfold _extract_class_info, index.
  destruct (is_empty line || (length line <? 2)%nat); [done|].
  destruct (line !! 1%nat) as [second|]; simpl; [|done].
  destruct (matches_class_pattern _); simpl; [|done].
  destruct (String.eqb _ "unknown"); [done|].
  destruct (ClassInfo_init _ _) as [r|[]] eqn:Hinit; try done.
  intros [= <-]. by exists second.
Qed.

(** [_extract_class_info] never raises: the constructor's errors are all
    [ValidationError]s, which it catches, and the second word is read only
    from a line of two words or more. *)
Theorem extract_class_info_never_raises (line : list Word) :
  ∃ outcome, _extract_class_info line = Ok outcome.
Proof.
  unfold _extract_class_info, index.
  destruct line as [|first [|second rest]]; simpl; try by eexists.
  destruct (matches_class_pattern _); simpl; [|by eexists].
  destruct (String.eqb _ "unknown"); [by eexists|].
  destruct (ClassInfo_init _ _) as [r|e] eqn:Hinit; [by eexists|].
  apply ClassInfo_init_Raise in Hinit as [why ->]. by eexists.
Qed.

Lemma determine_grade_level_single (d : ascii) (rest : string) :
  is_digit d = true → three_digits_end rest = true →
  _determine_grade_level (String d (String "-" rest)) = String d EmptyString.
Proof.
  intros Hd (a & b & c & tail & -> & Ha & Hb & Hc & Ht)%three_digits_end_inv.
  pose proof (is_digit_plain d Hd) as (HP & HK & Hslash & _).
  unfold _determine_grade_level, startswith.
  rewrite !prefix_cons_ne by done.
  rewrite contains_cons_ne by done. rewrite contains_cons_ne by done.
  rewrite contains_slash_digits by done. by rewrite Hd.
Qed.

Lemma determine_grade_level_multi (a b c : ascii) (rest : string) :
  is_K_or_digit a = true →
  _determine_grade_level
    (String a (String "/" (String b (String "/" (String c (String "-" rest))))))
  = "multiple".
Proof.
  intros Ha. unfold _determine_grade_level, startswith.
  assert (a ≠ "P"%char) as HP.
  { apply is_K_or_digit_cases in Ha as [->|Ha]; [done|].
    by apply is_digit_plain in Ha as (? & _). }
  rewrite prefix_cons_ne by done.
  assert (String.prefix "K-" (String a (String "/" (String b (String "/"
            (String c (String "-" rest)))))) = false) as ->.
  { cbn [String.prefix]. destruct (ascii_dec "K" a); [|done].
    by destruct (ascii_dec "-" "/"). }
  by rewrite contains_cons, contains_cons_eq, orb_true_r.
Qed.

Lemma is_K_or_digit_plain (c : ascii) :
  is_K_or_digit c = true → c ≠ "P"%char ∧ c ≠ "/"%char ∧ c ≠ "-"%char.
Proof.
  intros [->|(? & _ & ? & ?)%is_digit_plain]%is_K_or_digit_cases; done.
Qed.

Lemma class_prefix_multi (a b c : ascii) (rest : string) :
  is_K_or_digit a = true → is_K_or_digit b = true → is_K_or_digit c = true →
  hd EmptyString
     (split "-" (String a (String "/" (String b (String "/"
                   (String c (String "-" rest)))))))
  = String a (String "/" (String b (String "/" (String c EmptyString)))).
Proof.
  intros (_ & _ & Ha)%is_K_or_digit_plain (_ & _ & Hb)%is_K_or_digit_plain
         (_ & _ & Hc)%is_K_or_digit_plain.
  rewrite (hd_split_cons_ne _ a) by done. rewrite (hd_split_cons_ne _ "/") by done.
  rewrite (hd_split_cons_ne _ b) by done. rewrite (hd_split_cons_ne _ "/") by done.
  rewrite (hd_split_cons_ne _ c) by done. by rewrite hd_split_cons_eq.
Qed.

Lemma split_slash_multi (a b c : ascii) :
  is_K_or_digit a = true → is_K_or_digit b = true → is_K_or_digit c = true →
  split "/" (String a (String "/" (String b (String "/" (String c EmptyString)))))
  = [String a EmptyString; String b EmptyString; String c EmptyString].
Proof.
  intros (_ & Ha%Ascii.eqb_neq & _)%is_K_or_digit_plain
         (_ & Hb%Ascii.eqb_neq & _)%is_K_or_digit_plain
         (_ & Hc%Ascii.eqb_neq & _)%is_K_or_digit_plain.
  simpl. by rewrite Ha, Hb, Hc.
Qed.

(** The grade that [validate] derives for a multi-grade identifier: the
    three components decide. *)
Lemma expected_grade_of_multi (a b c : ascii) (rest : string) :
  is_K_or_digit a = true → is_K_or_digit b = true → is_K_or_digit c = true →
  expected_grade_of
    (String a (String "/" (String b (String "/" (String c (String "-" rest))))))
  = for_each (fun (_ : unit) grade =>
                if bool_decide (grade ∈ ["K"; "1"; "2"; "3"; "4"; "5"]) then Ok tt
                else Raise (ValidationError InvalidGradeInMultiple))
             [String a EmptyString; String b EmptyString; String c EmptyString] tt
    ≫= fun _ => Ok (Some "multiple").
Proof.
  intros Ha Hb Hc. unfold expected_grade_of.
  rewrite class_prefix_multi by done. unfold startswith.
  destruct (is_K_or_digit_plain a Ha) as (HP & _ & _).
  rewrite prefix_cons_ne by done.
  assert (String.eqb (String a (String "/" (String b (String "/"
            (String c EmptyString))))) "K" = false) as -> by by apply String.eqb_neq.
  rewrite contains_cons, contains_cons_eq, orb_true_r.
  by rewrite split_slash_multi.
Qed.

(** The grade the detector stores is the grade [validate] derives, for
    every identifier that is not multi-grade. *)
Lemma detected_grade_agrees (cid : string) (self : ClassInfo) :
  ClassInfo_init cid (_determine_grade_level cid) = Ok self →
  match_multi_grade cid = false →
  expected_grade_of cid = Ok (Some (_determine_grade_level cid)).
Proof.
  intros (Hpat & Hgrade & _)%ClassInfo_init_inv Hmulti.
  apply matches_class_pattern_cases in Hpat as [H|[H|[H|H]]]; [| | |congruence].
  - apply match_prek_inv in H as (rest & -> & Hrest).
    apply three_digits_end_inv in Hrest as (a & b & c & tail & -> & Ha & Hb & Hc & Ht).
    unfold expected_grade_of.
    rewrite (hd_split_cons_ne _ "P") by done. rewrite (hd_split_cons_ne _ "K") by done.
    by rewrite hd_split_digits.
  - apply match_kindergarten_inv in H as (rest & -> & Hrest).
    apply three_digits_end_inv in Hrest as (a & b & c & tail & -> & Ha & Hb & Hc & Ht).
    unfold expected_grade_of.
    rewrite (hd_split_cons_ne _ "K") by done. by rewrite hd_split_cons_eq.
  - apply match_single_grade_inv in H as (d & rest & -> & Hd & Hrest).
    rewrite determine_grade_level_single in * by done.
    unfold VALID_GRADES in Hgrade.
    repeat (apply elem_of_cons in Hgrade as [[= ->]|Hgrade]; try done).
    by apply elem_of_nil in Hgrade.
Qed.

(** ** When [validate] accepts *)

Lemma too_many_loop_Ok (d : list (string * list Z)) :
  Forall (fun periods : list Z => (length periods <= 8)%nat) (dict_values d) →
  for_each (fun (_ : unit) '(day, periods) =>
              if (8 <? length periods)%nat
              then Raise (ValidationError TooManyConflicts)
              else Ok tt) d tt = Ok tt.
Proof.
  induction d as [|[day periods] d IH]; simpl; [done|].
  intros [Hle Hrest]%Forall_cons.
  destruct (Nat.ltb_spec 8 (length periods)); [lia|]. simpl. by apply IH.
Qed.

Lemma too_many_loop_inv (d : list (string * list Z)) (u : unit) :
  for_each (fun (_ : unit) '(day, periods) =>
              if (8 <? length periods)%nat
              then Raise (ValidationError TooManyConflicts)
              else Ok tt) d tt = Ok u →
  Forall (fun periods : list Z => (length periods <= 8)%nat) (dict_values d).
Proof.
  induction d as [|[day periods] d IH]; simpl; [constructor|].
  destruct (Nat.ltb_spec 8 (length periods)); simpl; [done|].
  intros Hrest. constructor; [lia|by apply IH].
Qed.

Lemma any_conflicts_spec (values : list (list Z)) :
  existsb (fun periods : list Z => negb (Nat.eqb (length periods) 0)) values = true
  ↔ ∃ periods, periods ∈ values ∧ periods ≠ [].
Proof.
  rewrite existsb_exists. split.
  - intros (periods & Hin%list_elem_of_In & Hne). exists periods. split; [done|].
    intros ->. done.
  - intros (periods & Hin%list_elem_of_In & Hne). exists periods. split; [done|].
    by destruct periods.
Qed.

Lemma validate_Ok_iff (self : ClassInfo) :
  validate self = Ok tt
  ↔ expected_grade_of (class_id self) = Ok (Some (grade_level self)) ∧
    (∃ periods, periods ∈ dict_values (conflicts self) ∧ periods ≠ []) ∧
    Forall (fun periods : list Z => (length periods <= 8)%nat)
           (dict_values (conflicts self)).
Proof.
  unfold validate. rewrite <-any_conflicts_spec. split.
  - intros (eg & Heg & Hrest)%bind_Ok.
    case_bool_decide as Hgrade; simpl in Hrest; [|done]. subst eg.
    destruct (existsb _ _); simpl in Hrest; [|done].
    split; [done|]. split; [done|]. by apply too_many_loop_inv in Hrest.
  - intros (-> & -> & Hlen). simpl.
    rewrite bool_decide_eq_true_2 by done. simpl. by apply too_many_loop_Ok.
Qed.


(** ** From detection to finalization *)

Lemma add_conflicts_validate (calls : list (string * Z)) (self : ClassInfo) :
  well_formed self → tracks self →
  expected_grade_of (class_id self) = Ok (Some (grade_level self)) →
  calls ≠ [] → Forall valid_call calls →
  ∃ self', add_conflicts calls self = Ok self' ∧ validate self' = Ok tt.
Proof.
  intros Hwf Htr Hgrade Hne Hcalls.
  destruct (add_conflicts_tracks calls self Hwf Htr Hcalls)
    as (self' & Hadd & Hwf' & Htr' & Hall & Hid & Hg).
  exists self'. split; [done|]. apply validate_Ok_iff.
  rewrite Hid, Hg. split; [done|]. split.
  - destruct calls as [|[day p] calls]; [done|].
    apply Forall_cons in Hcalls as [[Hday _] _]. simpl in Hday.
    exists (periods_of self' day). split.
    + apply periods_of_values. destruct Hwf' as [-> _]. done.
    + assert (p ∈ periods_of self' day) as Hp.
      { apply Htr'. rewrite Hall. apply elem_of_union_l, elem_of_list_to_set. left. }
      intros Hnil. rewrite Hnil in Hp. by apply elem_of_nil in Hp.
  - destruct Hwf' as [_ Hvals]. eapply Forall_impl; [done|].
    intros periods [Hasc Hrange]. simpl.
    pose proof (strictly_ascending_length periods 1 8 Hasc Hrange). lia.
Qed.

(** A record opened by [_extract_class_info] under an identifier that is
    not multi-grade passes [validate] once at least one conflict has been
    added: the grade stored at detection is the grade finalization derives. *)
Theorem detected_record_validates (line : list Word) (self : ClassInfo)
    (calls : list (string * Z)) :
  _extract_class_info line = Ok (Some self) →
  match_multi_grade (class_id self) = false →
  calls ≠ [] → Forall valid_call calls →
  ∃ self', add_conflicts calls self = Ok self' ∧ validate self' = Ok tt.
Proof.
  intros (second & _ & Hinit)%extract_class_info_Some Hmulti Hne Hcalls.
  destruct (ClassInfo_init_well_formed _ _ _ Hinit) as (Hwf & Hid & Hg & _).
  apply add_conflicts_validate; try done.
  - by eapply new_record_tracks.
  - rewrite Hid in *. rewrite Hg. by eapply detected_grade_agrees.
Qed.

(** A multi-grade identifier with a component outside K, 1..5 (a 0 or a
    6..9) is accepted by the detector as grade "multiple", and every record
    that carries it fails [validate] with "Invalid grade ... in
    multiple-grade class"; with all three components among K, 1..5 the
    grade check of [validate] passes. *)
Theorem multi_grade_components_decide (line : list Word) (self : ClassInfo)
    (a b c : ascii) (rest : string) :
  _extract_class_info line = Ok (Some self) →
  class_id self
  = String a (String "/" (String b (String "/" (String c (String "-" rest))))) →
  grade_level self = "multiple" ∧
  (Forall (fun part => part ∈ ["K"; "1"; "2"; "3"; "4"; "5"])
          [String a EmptyString; String b EmptyString; String c EmptyString] →
   expected_grade_of (class_id self) = Ok (Some (grade_level self))) ∧
  (¬ Forall (fun part => part ∈ ["K"; "1"; "2"; "3"; "4"; "5"])
            [String a EmptyString; String b EmptyString; String c EmptyString] →
   ∀ other, class_id other = class_id self →
            validate other = Raise (ValidationError InvalidGradeInMultiple)).
Proof.
  intros (second & _ & Hinit)%extract_class_info_Some Hshape.
  destruct (ClassInfo_init_inv _ _ _ Hinit) as (Hpat & _ & ->). simpl in *.
  rewrite Hshape in *.
  assert (is_K_or_digit a = true ∧ is_K_or_digit b = true ∧ is_K_or_digit c = true)
    as (Ha & Hb & Hc).
  { apply matches_class_pattern_cases in Hpat as [H|[H|[H|H]]].
    - by apply match_prek_inv in H as (? & [=] & _).
    - by apply match_kindergarten_inv in H as (? & [=] & _).
    - by apply match_single_grade_inv in H as (? & ? & [=] & _).
    - by apply match_multi_grade_inv in H
        as (? & ? & ? & ? & [= <- <- <- <-] & ? & ? & ? & _). }
  rewrite determine_grade_level_multi by done. split; [done|].
  rewrite expected_grade_of_multi by done.
  split.
  - intros Hall. apply Forall_cons in Hall as [Hga Hall].
    apply Forall_cons in Hall as [Hgb Hall]. apply Forall_cons in Hall as [Hgc _].
    simpl. by rewrite !bool_decide_eq_true_2.
  - intros Hbad other Hother. unfold validate. rewrite Hother.
    rewrite expected_grade_of_multi by done. simpl.
    destruct (bool_decide (String a EmptyString ∈ _)) eqn:Ea; simpl; [|done].
    destruct (bool_decide (String b EmptyString ∈ _)) eqn:Eb; simpl; [|done].
    destruct (bool_decide (String c EmptyString ∈ _)) eqn:Ec; simpl; [|done].
    apply bool_decide_eq_true in Ea, Eb, Ec.
    contradict Hbad. repeat (apply Forall_cons; split; [done|]). constructor.
Qed.

(** ** The nearest day column *)

Lemma Qlt_bool_iff (a b : Q) : Qlt_bool a b = true ↔ (a < b)%Q.
Proof.
  unfold Qlt_bool. rewrite negb_true_iff. split.
  - intros H. apply Qnot_le_lt. intros Hle%Qle_bool_iff. congruence.
  - intros Hlt. destruct (Qle_bool b a) eqn:Hle; [|done].
    apply Qle_bool_iff in Hle. by apply Qlt_not_le in Hlt.
Qed.

Lemma Qlt_bool_false (a b : Q) : Qlt_bool a b = false ↔ (b <= a)%Q.
Proof.
  unfold Qlt_bool. rewrite negb_false_iff. apply Qle_bool_iff.
Qed.

Lemma column_search_step (x_pos : Q) (pre l : list Q) (st : option nat * option Q) :
  column_search_inv x_pos pre st →
  column_search_inv x_pos (pre ++ l)
    (fold_left
       (fun '(day_idx, min_distance) '(idx, col_x) =>
          let distance := Qabs (x_pos - col_x) in
          if match min_distance with
             | None => true
             | Some m => Qlt_bool distance m
             end && Qlt_bool distance 100
          then (Some idx, Some distance)
          else (day_idx, min_distance))
       (combine (seq (length pre) (length l)) l) st).
Proof.
  revert pre st. induction l as [|c l IH]; intros pre st Hinv;
    cbn [length seq combine fold_left].
  { by rewrite app_nil_r. }
  replace (pre ++ c :: l) with ((pre ++ [c]) ++ l) by by rewrite <-app_assoc.
  replace (S (length pre)) with (length (pre ++ [c]))
    by (rewrite length_app; simpl; lia).
  apply IH.
  destruct st as [[i|] [d|]]; cbv beta iota zeta; fold (distance x_pos c);
    unfold column_search_inv in Hinv; try done.
  - destruct Hinv as (col & Hcol & -> & Hlt & Hmin & Hfirst).
    destruct (Qlt_bool (distance x_pos c) (distance x_pos col)) eqn:Hc;
      cbn [andb].
    + apply Qlt_bool_iff in Hc.
      destruct (Qlt_bool (distance x_pos c) 100) eqn:Hc100;
        unfold column_search_inv.
      * exists c. rewrite lookup_app_r, Nat.sub_diag by done.
        split; [done|]. split; [done|]. split; [by apply Qlt_bool_iff|].
        split.
        -- intros j c' [Hj|[? Hj]]%lookup_app_Some.
           ++ specialize (Hmin j c' Hj). lra.
           ++ apply list_lookup_singleton_Some in Hj as [_ <-]. lra.
        -- intros j c' Hj Hlook. rewrite lookup_app_l in Hlook by done.
           specialize (Hmin j c' Hlook). lra.
      * apply Qlt_bool_false in Hc100. lra.
    + apply Qlt_bool_false in Hc. unfold column_search_inv. exists col.
      apply lookup_lt_Some in Hcol as Hi.
      rewrite lookup_app_l by done. split; [done|]. split; [done|]. split; [done|].
      split.
      * intros j c' [Hj|[? Hj]]%lookup_app_Some; [by eapply Hmin|].
        by apply list_lookup_singleton_Some in Hj as [_ <-].
      * intros j c' Hj Hlook. rewrite lookup_app_l in Hlook by lia.
        by eapply Hfirst.
  - destruct (Qlt_bool (distance x_pos c) 100) eqn:Hc100; cbn [andb];
      unfold column_search_inv.
    + apply Qlt_bool_iff in Hc100. exists c.
      rewrite lookup_app_r, Nat.sub_diag by done.
      split; [done|]. split; [done|]. split; [done|].
      rewrite Forall_forall in Hinv. split.
      * intros j c' [Hj|[? Hj]]%lookup_app_Some.
        -- apply list_elem_of_lookup_2 in Hj. specialize (Hinv c' Hj). lra.
        -- apply list_lookup_singleton_Some in Hj as [_ <-]. lra.
      * intros j c' Hj Hlook. rewrite lookup_app_l in Hlook by done.
        apply list_elem_of_lookup_2 in Hlook. specialize (Hinv c' Hlook). lra.
    + apply Qlt_bool_false in Hc100. apply Forall_app. split; [done|].
      by constructor.
Qed.

Lemma find_day_column_inv (DAY_COLUMNS : list Q) (x_pos : Q) :
  ∃ st, column_search_inv x_pos DAY_COLUMNS st ∧
        find_day_column DAY_COLUMNS x_pos = fst st.
Proof.
  eexists. split; [|done].
  apply (column_search_step x_pos [] DAY_COLUMNS (None, None)). simpl. constructor.
Qed.

(** The column [find_day_column] picks is a column of the list, lies
    closer than 100 to the position, and every column before it is
    strictly farther.  So no column is picked when all are 100 or more
    away. *)
Theorem find_day_column_nearest (DAY_COLUMNS : list Q) (x_pos : Q) (day_idx : nat) :
  find_day_column DAY_COLUMNS x_pos = Some day_idx →
  ∃ col_x, DAY_COLUMNS !! day_idx = Some col_x ∧
           (distance x_pos col_x < 100)%Q ∧
           (∀ j c, (j < day_idx)%nat → DAY_COLUMNS !! j = Some c →
                   (distance x_pos col_x < distance x_pos c)%Q).
Proof.
  destruct (find_day_column_inv DAY_COLUMNS x_pos) as ([[i|] [d|]] & Hinv & ->);
    simpl in *; try done.
  intros [= <-]. destruct Hinv as (col & Hcol & -> & ? & _ & ?). by exists col.
Qed.

(** ** Conflict extraction as a sequence of calls *)

Lemma search_period_range (s : string) (p : Z) :
  search_period s = Some p → 1 <= p <= 8.
Proof.
  induction s as [|c s IH]; cbn [search_period]; [done|].
  destruct ((49 <=? nat_of_ascii c)%nat && (nat_of_ascii c <=? 56)%nat) eqn:E;
    [|exact IH].
  apply andb_true_iff in E as [?%Nat.leb_le ?%Nat.leb_le].
  intros [= <-]. unfold digit_value. lia.
Qed.

Lemma find_day_column_lt (DAY_COLUMNS : list Q) (x_pos : Q) (day_idx : nat) :
  find_day_column DAY_COLUMNS x_pos = Some day_idx →
  (day_idx < length DAY_COLUMNS)%nat.
Proof.
  destruct (find_day_column_inv DAY_COLUMNS x_pos) as ([[i|] [d|]] & Hinv & ->);
    simpl in *; try done.
  intros [= <-]. destruct Hinv as (col & Hcol & _). by eapply lookup_lt_Some.
Qed.

Lemma word_conflict_valid (DAY_COLUMNS : list Q) (word : Word) (call : string * Z) :
  word_conflict DAY_COLUMNS word = Some call → valid_call call.
Proof.
  unfold word_conflict.
  destruct (search_period (text word)) as [p|] eqn:Hp; simpl; [|done].
  destruct (find_day_column DAY_COLUMNS (x0 word)) as [i|]; simpl; [|done].
  destruct (DAYS !! i) as [day|] eqn:Hday; simpl; [|done].
  intros [= <-]. split; simpl.
  - by eapply list_elem_of_lookup_2.
  - by eapply search_period_range.
Qed.

(** One word of the line: the call it stands for, or nothing. *)
Lemma extract_word_as_call (DAY_COLUMNS : list Q) (line : list Word) (start_idx : Z)
    (class_info : ClassInfo) (i : nat) (word : Word) :
  (length DAY_COLUMNS <= 5)%nat →
  extract_word DAY_COLUMNS line start_idx class_info (i, word)
  = match word_conflict DAY_COLUMNS word with
    | Some (day, period) => add_conflict class_info day period
    | None => Ok class_info
    end.
Proof.
  intros Hlen. unfold extract_word, word_conflict.
  destruct (search_period (text word)) as [p|]; simpl; [|done].
  destruct (find_day_column DAY_COLUMNS (x0 word)) as [idx|] eqn:Hidx; simpl; [|done].
  apply find_day_column_lt in Hidx.
  destruct (lookup_lt_is_Some_2 DAYS idx) as [day Hday]; [simpl; lia|].
  unfold index. rewrite Hday. simpl. by destruct (truthy _).
Qed.

Lemma for_each_calls {A : Type} (f : A → option (string * Z)) (xs : list A)
    (class_info : ClassInfo) :
  for_each (fun class_info x =>
              match f x with
              | Some (day, period) => add_conflict class_info day period
              | None => Ok class_info
              end) xs class_info
  = add_conflicts (omap f xs) class_info.
Proof.
  revert class_info. induction xs as [|x xs IH]; intros class_info; simpl; [done|].
  destruct (f x) as [[day period]|]; simpl; [|apply IH].
  unfold add_conflicts. simpl.
  destruct (add_conflict class_info day period); simpl; [apply IH|done].
Qed.

Lemma omap_enumerate {A B : Type} (f : A → option B) (l : list A) (n : nat) :
  omap (fun entry : nat * A => f (snd entry)) (combine (seq n (length l)) l)
  = omap f l.
Proof.
  revert n. induction l as [|x l IH]; intros n; simpl; [done|].
  by rewrite IH.
Qed.

Lemma omap_drop_enumerate {A B : Type} (f : A → option B) (l : list A) (k n : nat) :
  omap (fun entry : nat * A => f (snd entry)) (drop k (combine (seq n (length l)) l))
  = omap f (drop k l).
Proof.
  revert k n. induction l as [|x l IH]; intros k n.
  - by destruct k.
  - destruct k as [|k]; [rewrite !drop_0; apply omap_enumerate|].
    cbn [length seq combine drop]. apply IH.
Qed.

Lemma extract_conflicts_calls (DAY_COLUMNS : list Q) (line : list Word)
    (class_info : ClassInfo) (continuation_line : bool) :
  (length DAY_COLUMNS <= 5)%nat →
  _extract_conflicts DAY_COLUMNS line class_info continuation_line
  = add_conflicts
      (omap (word_conflict DAY_COLUMNS)
            (drop (if continuation_line then 0 else 2)%nat line))
      class_info.
Proof.
  intros Hlen. unfold _extract_conflicts.
  destruct line as [|first rest].
  { simpl. by rewrite drop_nil. }
  destruct DAY_COLUMNS as [|col cols].
  { simpl. generalize (drop (if continuation_line then 0 else 2)%nat (first :: rest)).
    intros l. replace (omap (word_conflict []) l) with (@nil (string * Z)); [done|].
    induction l as [|w l IH]; simpl; [done|].
    unfold word_conflict at 1. by destruct (search_period (text w)). }
  cbn [is_empty orb].
  rewrite (for_each_ext _
             (fun s (entry : nat * Word) =>
                match word_conflict (col :: cols) (snd entry) with
                | Some (day, period) => add_conflict s day period
                | None => Ok s
                end))
    by (intros s [i w]; by apply extract_word_as_call).
  rewrite (for_each_calls (fun entry : nat * Word => word_conflict (col :: cols) (snd entry))).
  unfold enumerate. rewrite omap_drop_enumerate. by destruct continuation_line.
Qed.


Lemma add_conflict_keeps_identity (self self' : ClassInfo) (day : string) (p : Z) :
  add_conflict self day p = Ok self' →
  class_id self' = class_id self ∧ grade_level self' = grade_level self.
Proof.
  unfold add_conflict, dict_lookup. intros (_ & _ & Hrest)%bind_Ok.
  repeat (case_match; simpl in * ); simplify_eq/=; done.
Qed.

Lemma add_conflicts_keeps_identity (calls : list (string * Z)) (self self' : ClassInfo) :
  add_conflicts calls self = Ok self' →
  class_id self' = class_id self ∧ grade_level self' = grade_level self.
Proof.
  unfold add_conflicts.
  apply (for_each_preserves
           (fun s => class_id s = class_id self ∧ grade_level s = grade_level self));
    [|done].
  intros s [day p] s' [Hid Hg] [Hid' Hg']%add_conflict_keeps_identity. by split; congruence.
Qed.

(** On a well-formed record with at most five columns calibrated,
    [_extract_conflicts] raises nothing: it returns a well-formed record
    with the identifier and grade it was given. *)
Theorem extract_conflicts_never_raises (DAY_COLUMNS : list Q) (line : list Word)
    (class_info : ClassInfo) (continuation_line : bool) :
  (length DAY_COLUMNS <= 5)%nat → well_formed class_info →
  ∃ class_info',
    _extract_conflicts DAY_COLUMNS line class_info continuation_line = Ok class_info' ∧
    well_formed class_info' ∧
    class_id class_info' = class_id class_info ∧
    grade_level class_info' = grade_level class_info.
Proof.
  intros Hlen Hwf. rewrite extract_conflicts_calls by done.
  destruct (add_conflicts_well_formed
              (omap (word_conflict DAY_COLUMNS)
                    (drop (if continuation_line then 0 else 2)%nat line))
              class_info Hwf) as (r & Hadd & Hwf').
  { apply Forall_forall. intros call (w & _ & Hw)%list_elem_of_omap.
    by eapply word_conflict_valid. }
  exists r. split; [done|]. split; [done|]. by eapply add_conflicts_keeps_identity.
Qed.

(** The first two words of an opening line never add a conflict, whatever
    digits they hold: the line is treated as the continuation line made of
    its remaining words. *)
Theorem opening_line_as_continuation (DAY_COLUMNS : list Q) (line : list Word)
    (class_info : ClassInfo) :
  (length DAY_COLUMNS <= 5)%nat →
  _extract_conflicts DAY_COLUMNS line class_info false
  = _extract_conflicts DAY_COLUMNS (drop 2 line) class_info true.
Proof.
  intros Hlen. rewrite !extract_conflicts_calls by done. by rewrite drop_0.
Qed.

(** ** Grouping words into lines *)

Lemma Qabs_self (x : Q) : (Qabs (x - x) <= 5)%Q.
Proof.
  assert (x - x == 0)%Q as -> by ring. done.
Qed.

Lemma anchors_separated_snoc (ys : list Q) (y y' : Q) :
  anchors_separated (ys ++ [y]) → (5 < Qabs (y' - y))%Q →
  anchors_separated ((ys ++ [y]) ++ [y']).
Proof.
  induction ys as [|y1 ys IH]; simpl; [done|].
  destruct ys as [|y2 ys]; simpl in *.
  - intros [H _] ?. done.
  - intros [H Hrest] ?. split; [done|]. by apply IH.
Qed.

Lemma grouping_step (ws seen : list Word)
    (st : list (list Word) * list Word * option Q) :
  grouping_inv seen st →
  grouping_inv (seen ++ ws)
    (fold_left
       (fun '(lines, current_line, current_y) word =>
          let current_y : Q :=
            match current_y with None => top word | Some y => y end in
          if Qlt_bool 5 (Qabs (top word - current_y))
          then ((if is_empty current_line then lines else lines ++ [current_line]),
                [word], Some (top word))
          else (lines, current_line ++ [word], Some current_y))
       ws st).
Proof.
  revert seen st. induction ws as [|w ws IH]; intros seen st Hinv;
    cbn [fold_left].
  { by rewrite app_nil_r. }
  replace (seen ++ w :: ws) with ((seen ++ [w]) ++ ws) by by rewrite <-app_assoc.
  apply IH. destruct st as [[lines cur] y]. destruct Hinv as (Hseen & Hlines & Hcur).
  destruct cur as [|w0 cur].
  - destruct Hcur as [-> ->]. cbv beta iota zeta.
    assert (Qlt_bool 5 (Qabs (top w - top w)) = false) as ->.
    { apply Qlt_bool_false, Qabs_self. }
    simpl in *. subst seen. split; [done|]. split; [done|]. split; [done|].
    split; [|done]. split; [done|]. constructor; [apply Qabs_self|constructor].
  - destruct Hcur as (-> & Hline & Hsep). pose proof Hline as [_ Htol].
    cbv beta iota zeta.
    destruct (Qlt_bool 5 (Qabs (top w - top w0))) eqn:Hfar.
    + apply Qlt_bool_iff in Hfar. cbn [is_empty].
      split; [|split; [|split; [|split]]].
      * rewrite concat_app. simpl. by rewrite app_nil_r, Hseen.
      * apply Forall_app. split; [done|]. constructor; [done|constructor].
      * done.
      * split; [done|]. constructor; [apply Qabs_self|constructor].
      * rewrite !map_app. rewrite !map_app in Hsep.
        cbn [map anchor] in Hsep |- *. by apply anchors_separated_snoc.
    + apply Qlt_bool_false in Hfar.
      split; [|split; [|split; [|split]]].
      * by rewrite <-Hseen, <-app_assoc.
      * done.
      * done.
      * split; [done|]. cbn [anchor app] in Htol |- *.
        apply Forall_cons in Htol as [? Htol].
        constructor; [done|]. apply Forall_app. split; [done|]. by constructor.
      * rewrite !map_app. rewrite !map_app in Hsep.
        by cbn [map anchor app] in Hsep |- *.
Qed.

Lemma group_into_lines_inv (words : list Word) :
  concat (_group_into_lines words) = sort_by word_key_le words ∧
  Forall line_within_tolerance (_group_into_lines words) ∧
  anchors_separated (map anchor (_group_into_lines words)).
Proof.
  unfold _group_into_lines.
  set (st := fold_left _ _ _).
  assert (grouping_inv (sort_by word_key_le words) st) as Hinv.
  { apply (grouping_step (sort_by word_key_le words) [] ([], [], None)).
    simpl. done. }
  clearbody st. destruct st as [[lines cur] y].
  destruct Hinv as (Hseen & Hlines & Hcur).
  destruct cur as [|w0 cur]; cbn [is_empty].
  - destruct Hcur as [_ ->]. simpl in *. by rewrite <-Hseen.
  - destruct Hcur as (_ & Htol & Hsep). split; [|split].
    + rewrite concat_app. simpl. by rewrite app_nil_r.
    + apply Forall_app. split; [done|]. constructor; [done|constructor].
    + done.
Qed.

(** [_group_into_lines] loses, repeats and invents no word: read line by
    line, its output is the input sorted by vertical and then horizontal
    position. *)
Theorem group_into_lines_keeps_words (words : list Word) :
  concat (_group_into_lines words) = sort_by word_key_le words ∧
  concat (_group_into_lines words) ≡ₚ words.
Proof.
  destruct (group_into_lines_inv words) as (Hconcat & _).
  split; [done|]. rewrite Hconcat. apply sort_by_perm.
Qed.

(** No line of [_group_into_lines] is empty. *)
Theorem group_into_lines_no_empty_line (words : list Word) :
  Forall (fun line => line ≠ []) (_group_into_lines words).
Proof.
  destruct (group_into_lines_inv words) as (_ & Htol & _).
  eapply Forall_impl; [exact Htol|]. by intros line [Hne _].
Qed.

(** The first word of each line lies more than 5 away, vertically, from
    the first word of the line before it. *)
Theorem group_into_lines_separated (words : list Word) :
  anchors_separated (map anchor (_group_into_lines words)).
Proof. by destruct (group_into_lines_inv words) as (_ & _ & ?). Qed.

(** ** When calibration returns *)

Lemma fill_remaining_length (fuel : nat) (l l' : list Q) :
  (5 <= length l + fuel)%nat → fill_remaining fuel l = Ok l' → (5 <= length l')%nat.
Proof.
  revert l. induction fuel as [|fuel IH]; intros l Hfuel; simpl.
  - intros [= <-]. lia.
  - destruct (Nat.ltb_spec (length l) 5) as [Hlt|Hge]; [|intros [= <-]; lia].
    destruct (is_empty l).
    + apply IH. simpl. lia.
    + intros (a & _ & (b & _ & Hrest)%bind_Ok)%bind_Ok. revert Hrest.
      apply IH. rewrite length_app. simpl. lia.
Qed.

Lemma calibrate_length (words : list Word) (columns : list Q) :
  calibrate words = Ok columns → length columns = 5%nat.
Proof.
  unfold calibrate. destruct (is_empty _); [by intros [= <-]|].
  intros (l' & Hfill%fill_remaining_length & [= <-])%bind_Ok; [|lia].
  rewrite length_take. lia.
Qed.

(** What calibration does on its word list: it fails, with an
    [IndexError], exactly on a single Monday candidate. *)
Lemma calibrate_outcome (words : list Word) :
  ((∃ pos, find_day_positions words = [("Monday", pos)]) ∧
   calibrate words = Raise IndexError)
  ∨ ((∀ pos, find_day_positions words ≠ [("Monday", pos)]) ∧
     ∃ columns, calibrate words = Ok columns).
Proof.
  pose proof (find_day_positions_days words) as Hdays.
  unfold calibrate.
  destruct (find_day_positions words) as [|[day pos] [|c' cs]] eqn:Hfound.
  - right. split; [done|]. by eexists.
  - apply Forall_cons in Hdays as [Hday _]. simpl in Hday. unfold DAYS in Hday.
    apply elem_of_cons in Hday as [->|Hday].
    { left. split; [by exists pos|done]. }
    right.
    repeat (apply elem_of_cons in Hday as [->|Hday]);
      [split; [done|by eexists]..|by apply elem_of_nil in Hday].
  - right. split; [done|]. cbn [is_empty].
    set (day_positions := sort_by by_position _).
    assert (Forall (fun entry => fst entry ∈ DAYS) day_positions) as Hdays'.
    { unfold day_positions. by rewrite sort_by_perm. }
    pose proof (fold_place_day_length day_positions [] Hdays') as Hge.
    unfold day_positions in Hge at 1.
    rewrite (Permutation_length (sort_by_perm _ _)) in Hge. simpl in Hge.
    destruct (fill_remaining_spec 5 (fold_left place_day day_positions []))
      as (l' & -> & _); [lia..|].
    by eexists.
Qed.

(** [_calibrate_day_columns] on a parser that is not calibrated yet raises
    exactly when the day-header candidates of the page are one single
    Monday, and what it raises is an [IndexError]. *)
Theorem calibrate_raises_iff_lone_monday (self : MasterScheduleParser) (page : Page)
    (e : exn) :
  DAY_COLUMNS self = [] →
  (_calibrate_day_columns self page = Raise e
   ↔ e = IndexError ∧
     ∃ pos, find_day_positions (extract_words page 3) = [("Monday", pos)]).
Proof.
  intros Hcols. unfold _calibrate_day_columns. rewrite Hcols. cbn [is_empty negb].
  destruct (calibrate_outcome (extract_words page 3))
    as [[Hlone ->]|[Hnot [columns ->]]]; simpl.
  - split; [by intros [= <-]|by intros [-> _]].
  - split; [done|]. intros [_ [pos Hpos]]. by destruct (Hnot pos).
Qed.

(** When [_calibrate_day_columns] returns it leaves exactly five columns
    and touches nothing else; any later call, on any page, then returns
    the parser as it is: the columns are computed once. *)
Theorem calibrate_once (self self' : MasterScheduleParser) (page : Page) :
  DAY_COLUMNS self = [] →
  _calibrate_day_columns self page = Ok self' →
  length (DAY_COLUMNS self') = 5%nat ∧
  heap self' = heap self ∧ classes self' = classes self ∧
  ∀ page', _calibrate_day_columns self' page' = Ok self'.
Proof.
  intros Hcols. unfold _calibrate_day_columns at 1. rewrite Hcols. cbn [is_empty negb].
  intros (columns & Hcal%calibrate_length & [= <-])%bind_Ok. simpl.
  split; [done|]. split; [done|]. split; [done|]. intros page'.
  unfold _calibrate_day_columns. simpl. by destruct columns.
Qed.

(** With no word that holds a weekday name, the columns are the fixed
    positions 150, 250, 350, 450, 550. *)
Theorem calibrate_no_headers_fixed (self : MasterScheduleParser) (page : Page) :
  DAY_COLUMNS self = [] →
  Forall (fun w => word_days w = []) (extract_words page 3) →
  _calibrate_day_columns self page
  = Ok {| heap := heap self; classes := classes self;
          DAY_COLUMNS := FIXED_POSITIONS |}.
Proof.
  intros Hcols Hnone. unfold _calibrate_day_columns, calibrate.
  rewrite Hcols. by rewrite (find_day_positions_no_day _ Hnone).
Qed.

(** ** Interpolation and extrapolation *)

Lemma Forall2_Qeq_refl (l : list Q) : Forall2 Qeq l l.
Proof. induction l; constructor; [reflexivity|done]. Qed.

Lemma Forall2_Qeq_trans (l1 l2 l3 : list Q) :
  Forall2 Qeq l1 l2 → Forall2 Qeq l2 l3 → Forall2 Qeq l1 l3.
Proof.
  intros H12. revert l3. induction H12 as [|a b l1 l2 Hab _ IH]; intros l3 H23.
  - done.
  - destruct l3 as [|c l3]; [by apply Forall2_cons_nil_inv in H23|].
    apply Forall2_cons in H23 as [Hbc H23].
    constructor; [by rewrite Hab|by apply IH].
Qed.

Lemma Forall2_Qeq_sym (l1 l2 : list Q) : Forall2 Qeq l1 l2 → Forall2 Qeq l2 l1.
Proof. induction 1; constructor; [by symmetry|done]. Qed.

Lemma evenly_spaced_Qeq (start start' step step' : Q) (n : nat) :
  (start == start')%Q → (step == step')%Q →
  Forall2 Qeq (evenly_spaced start step n) (evenly_spaced start' step' n).
Proof.
  intros Hstart Hstep. unfold evenly_spaced. apply Forall2_fmap, Forall_Forall2_diag.
  apply Forall_forall. intros k _. simpl. by rewrite Hstart, Hstep.
Qed.

Lemma evenly_spaced_S (start step : Q) (n : nat) :
  Forall2 Qeq (evenly_spaced start step (S n))
              ((start + step)%Q :: evenly_spaced (start + step) step n).
Proof.
  unfold evenly_spaced. cbn [seq map]. constructor.
  - change (inject_Z (Z.of_nat 1)) with 1%Q. ring.
  - rewrite <-seq_shift, map_map. apply Forall2_fmap, Forall_Forall2_diag.
    apply Forall_forall. intros k _. simpl.
    rewrite Nat2Z.inj_succ, <-Z.add_1_r, inject_Z_plus.
    change (inject_Z 1) with 1%Q. ring.
Qed.

Lemma inject_Z_of_nat_nonneg (n : nat) : (0 <= inject_Z (Z.of_nat n))%Q.
Proof. change 0%Q with (inject_Z 0). rewrite <-Zle_Qle. lia. Qed.

(** The slots missing before a candidate, after a previous position. *)
Lemma fill_missing_evenly_spaced (idx : nat) (pos : Q) (n fuel : nat)
    (l : list Q) (prev : Q) :
  last l = Some prev → idx = (length l + n)%nat → (n <= fuel)%nat →
  Forall2 Qeq (fill_missing fuel idx pos l ++ [pos])
              (l ++ evenly_spaced prev
                      ((pos - prev) / (inject_Z (Z.of_nat n) + 1)) (S n)).
Proof.
  revert fuel l prev. induction n as [|n IH]; intros fuel l prev Hlast Hidx Hfuel.
  - assert (fill_missing fuel idx pos l = l) as ->.
    { destruct fuel; simpl; [done|].
      destruct (Nat.ltb_spec (length l) idx); [lia|done]. }
    apply Forall2_app; [apply Forall2_Qeq_refl|].
    unfold evenly_spaced. simpl. constructor; [|constructor].
    change (inject_Z 0) with 0%Q. change (inject_Z 1) with 1%Q. field.
  - destruct fuel as [|fuel]; [lia|]. cbn [fill_missing].
    destruct (Nat.ltb_spec (length l) idx); [|lia]. rewrite Hlast.
    replace (Z.of_nat idx - Z.of_nat (length l))%Z with (Z.of_nat (S n)) by lia.
    set (a := inject_Z (Z.of_nat n)).
    assert (0 <= a)%Q as Ha by apply inject_Z_of_nat_nonneg.
    assert (inject_Z (Z.of_nat (S n) + 1) == a + 1 + 1)%Q as Hdiv.
    { rewrite Nat2Z.inj_succ, <-Z.add_1_r, !inject_Z_plus. reflexivity. }
    assert (inject_Z (Z.of_nat (S n)) + 1 == a + 1 + 1)%Q as Hdiv'.
    { rewrite Nat2Z.inj_succ, <-Z.add_1_r, !inject_Z_plus. reflexivity. }
    set (new := (prev + (pos - prev) / inject_Z (Z.of_nat (S n) + 1))%Q).
    eapply Forall2_Qeq_trans.
    { apply (IH fuel (l ++ [new]) new).
      - apply last_snoc.
      - rewrite length_app. simpl. lia.
      - lia. }
    rewrite <-app_assoc. apply Forall2_app; [apply Forall2_Qeq_refl|].
    eapply Forall2_Qeq_trans; [|apply Forall2_Qeq_sym, evenly_spaced_S].
    simpl. constructor.
    + unfold new. rewrite Hdiv, Hdiv'. reflexivity.
    + apply evenly_spaced_Qeq.
      * unfold new. rewrite Hdiv, Hdiv'. reflexivity.
      * fold a. unfold new. rewrite Hdiv, Hdiv'. field. lra.
Qed.

(** Interpolation: when a candidate for slot [idx] arrives after a
    previous position, the slots in between and the candidate's own slot
    are spaced evenly from the previous position to the candidate's, the
    last of them being the candidate's position. *)
Theorem interpolation_evenly_spaced (ordered_positions : list Q) (day : string)
    (pos prev : Q) (idx : nat) :
  day_order (title day) = Some idx →
  last ordered_positions = Some prev →
  (length ordered_positions <= idx)%nat →
  Forall2 Qeq
    (place_day ordered_positions (day, pos))
    (ordered_positions
       ++ evenly_spaced prev
            ((pos - prev) / (inject_Z (Z.of_nat (idx - length ordered_positions)) + 1))
            (S (idx - length ordered_positions))).
Proof.
  intros Hidx Hlast Hlen. unfold place_day. rewrite Hidx.
  apply fill_missing_evenly_spaced; [done|lia..].
Qed.

(** Backward extrapolation: a first candidate for a slot after Monday
    puts Monday at 150 and spaces the slots evenly from 150 to its own
    position. *)
Theorem backward_extrapolation_from_150 (day : string) (pos : Q) (idx : nat) :
  day_order (title day) = Some idx → (0 < idx)%nat →
  Forall2 Qeq
    (place_day [] (day, pos))
    (150%Q :: evenly_spaced 150 ((pos - 150) / inject_Z (Z.of_nat idx)) idx).
Proof.
  intros Hidx Hpos. unfold place_day. rewrite Hidx.
  destruct idx as [|m]; [lia|]. cbn [fill_missing length last].
  destruct (Nat.ltb_spec 0 (S m)); [|lia].
  set (k := inject_Z (Z.of_nat (S m))).
  assert (k == inject_Z (Z.of_nat m) + 1)%Q as Hk.
  { unfold k. rewrite Nat2Z.inj_succ, <-Z.add_1_r, inject_Z_plus. reflexivity. }
  pose proof (inject_Z_of_nat_nonneg m) as Hm.
  set (new := (pos - (pos - 150) / k * inject_Z (Z.of_nat (S m) - Z.of_nat 0))%Q).
  assert (new == 150)%Q as Hnew.
  { unfold new. change (Z.of_nat 0) with 0%Z. rewrite Z.sub_0_r. fold k.
    field. lra. }
  eapply Forall2_Qeq_trans.
  { apply (fill_missing_evenly_spaced (S m) pos m m [new] new); [done|done|lia]. }
  simpl. constructor; [done|].
  replace (m - 0)%nat with m by lia.
  apply evenly_spaced_Qeq; [done|]. rewrite Hnew, Hk. reflexivity.
Qed.

Lemma fill_remaining_evenly_spaced (n fuel : nat) (l0 : list Q) (b a : Q) :
  (length (l0 ++ [b; a]) + n = 5)%nat → (n <= fuel)%nat →
  ∃ l', fill_remaining fuel (l0 ++ [b; a]) = Ok l' ∧
        Forall2 Qeq l' ((l0 ++ [b; a]) ++ evenly_spaced a (a - b) n).
Proof.
  revert fuel l0 b a. induction n as [|n IH]; intros fuel l0 b a Hlen Hfuel.
  - exists (l0 ++ [b; a]). split.
    + destruct fuel; simpl; [done|].
      destruct (Nat.ltb_spec (length (l0 ++ [b; a])) 5); [lia|done].
    + unfold evenly_spaced. simpl. rewrite app_nil_r. apply Forall2_Qeq_refl.
  - destruct fuel as [|fuel]; [lia|]. cbn [fill_remaining].
    destruct (Nat.ltb_spec (length (l0 ++ [b; a])) 5); [|lia].
    assert (is_empty (l0 ++ [b; a]) = false) as -> by by destruct l0.
    unfold index_from_end. rewrite rev_app_distr. simpl.
    destruct (IH fuel (l0 ++ [b]) a (a + (a - b))%Q) as (l' & Hl' & Heq).
    { rewrite <-app_assoc. simpl. rewrite !length_app in *. simpl in *. lia. }
    { lia. }
    rewrite <-!app_assoc in Hl'. cbn [app] in Hl'.
    rewrite <-app_assoc. cbn [app]. rewrite Hl'. exists l'. split; [done|].
    eapply Forall2_Qeq_trans; [exact Heq|].
    rewrite <-!app_assoc. cbn [app].
    apply Forall2_app; [apply Forall2_Qeq_refl|].
    constructor; [reflexivity|]. constructor; [reflexivity|].
    eapply Forall2_Qeq_trans; [|apply Forall2_Qeq_sym, evenly_spaced_S].
    constructor; [reflexivity|]. apply evenly_spaced_Qeq; [reflexivity|ring].
Qed.

(** Forward extrapolation: the slots still missing after the last
    candidate continue with the spacing of the last two positions. *)
Theorem forward_extrapolation_constant_step (l0 : list Q) (b a : Q) :
  (length (l0 ++ [b; a]) <= 5)%nat →
  ∃ l', fill_remaining 5 (l0 ++ [b; a]) = Ok l' ∧
        Forall2 Qeq l'
          ((l0 ++ [b; a])
             ++ evenly_spaced a (a - b) (5 - length (l0 ++ [b; a]))).
Proof.
  intros Hlen. apply fill_remaining_evenly_spaced; lia.
Qed.

(** ** What [parse] returns *)

Lemma dict_set_elem_of {V : Type} (k k' : string) (v v' : V) (d : list (string * V)) :
  (k', v') ∈ dict_set k v d → (k' = k ∧ v' = v) ∨ (k', v') ∈ d.
Proof.
  induction d as [|[k0 v0] d IH]; simpl.
  - intros [= -> ->]%list_elem_of_singleton. by left.
  - destruct (String.eqb k k0).
    + intros [[= -> ->]|Hin]%elem_of_cons; [by left|]. right. by right.
    + intros [[= -> ->]|Hin]%elem_of_cons; [right; left|].
      destruct (IH Hin) as [?|?]; [by left|]. right. by right.
Qed.

Lemma extract_conflicts_Ok_inv (DAY_COLUMNS : list Q) (line : list Word)
    (class_info class_info' : ClassInfo) (continuation_line : bool) :
  (length DAY_COLUMNS <= 5)%nat → well_formed class_info →
  _extract_conflicts DAY_COLUMNS line class_info continuation_line = Ok class_info' →
  well_formed class_info' ∧ class_id class_info' = class_id class_info.
Proof.
  intros Hlen Hwf. rewrite extract_conflicts_calls by done. intros Hadd.
  destruct (add_conflicts_well_formed
              (omap (word_conflict DAY_COLUMNS)
                    (drop (if continuation_line then 0 else 2)%nat line))
              class_info Hwf) as (r & Hadd' & Hwf').
  { apply Forall_forall. intros call (w & _ & Hw)%list_elem_of_omap.
    by eapply word_conflict_valid. }
  rewrite Hadd in Hadd'. injection Hadd' as <-. split; [done|].
  by eapply add_conflicts_keeps_identity.
Qed.

Lemma process_line_parser_inv (st st' : MasterScheduleParser * option nat)
    (line : list Word) :
  parser_inv (fst st) → process_line st line = Ok st' → parser_inv (fst st').
Proof.
  destruct st as [self current]. intros Hinv Hline.
  split; [by eapply process_line_keys_NoDup; [apply Hinv|]|].
  destruct Hinv as (_ & Hcons & Hheap & Hcols). revert Hline.
  unfold process_line. simpl.
  intros (class_info & Hinfo & Hrest)%bind_Ok.
  assert (∀ (self1 : MasterScheduleParser) (ref : nat) (flag : bool),
            (∀ cid r, (cid, r) ∈ classes self1 →
                      ∃ x, heap self1 !! r = Some x ∧ class_id x = cid) →
            Forall well_formed (heap self1) →
            (length (DAY_COLUMNS self1) <= 5)%nat →
            (obj ← index (heap self1) ref;
             obj' ← _extract_conflicts (DAY_COLUMNS self1) line obj flag;
             Ok ({| heap := <[ref := obj']> (heap self1);
                    classes := classes self1;
                    DAY_COLUMNS := DAY_COLUMNS self1 |}, Some ref)) = Ok st' →
            (∀ cid r, (cid, r) ∈ classes (fst st') →
                      ∃ x, heap (fst st') !! r = Some x ∧ class_id x = cid) ∧
            Forall well_formed (heap (fst st')) ∧
            (length (DAY_COLUMNS (fst st')) <= 5)%nat) as Hextract.
  { intros self1 ref flag Hcons1 Hheap1 Hcols1.
    intros (obj & Hobj & (obj' & Hobj' & [= <-])%bind_Ok)%bind_Ok. simpl.
    unfold index in Hobj. destruct (heap self1 !! ref) as [o|] eqn:Href; [|done].
    injection Hobj as ->.
    assert (well_formed obj) as Hwf.
    { rewrite Forall_forall in Hheap1. eapply Hheap1. by eapply list_elem_of_lookup_2. }
    destruct (extract_conflicts_Ok_inv _ _ _ _ _ Hcols1 Hwf Hobj') as [Hwf' Hid].
    split; [|split; [|done]].
    - intros cid r Hin. destruct (Hcons1 cid r Hin) as (x & Hx & Hxid).
      destruct (decide (r = ref)) as [->|Hne].
      + exists obj'. rewrite list_lookup_insert_eq by by eapply lookup_lt_Some.
        split; [done|]. congruence.
      + exists x. by rewrite list_lookup_insert_ne.
    - apply Forall_insert; done. }
  destruct class_info as [class_info|]; simpl in Hrest.
  - apply extract_class_info_Some in Hinfo as (second & _ & Hinit).
    apply ClassInfo_init_well_formed in Hinit as (Hwf & _).
    revert Hrest.
    apply (Hextract {| heap := heap self ++ [class_info];
                       classes := dict_set (class_id class_info)
                                           (length (heap self)) (classes self);
                       DAY_COLUMNS := DAY_COLUMNS self |}
                    (length (heap self)) false); simpl; [| |done].
    + intros cid r [[-> ->]|Hin]%dict_set_elem_of.
      * exists class_info. by rewrite lookup_app_r, Nat.sub_diag.
      * destruct (Hcons cid r Hin) as (x & Hx & Hxid). exists x.
        split; [|done]. by apply lookup_app_l_Some.
    + apply Forall_app. split; [done|]. by constructor.
  - destruct current as [ref|].
    + revert Hrest. by apply Hextract.
    + by injection Hrest as <-.
Qed.

Lemma process_page_parser_inv (self self' : MasterScheduleParser) (page : Page) :
  parser_inv self → _process_page self page = Ok self' → parser_inv self'.
Proof.
  intros Hinv. unfold _process_page.
  intros ([s cur] & Hlines & [= <-])%bind_Ok. revert Hlines.
  apply (for_each_preserves (fun st => parser_inv (fst st))); [|done].
  intros. by eapply process_line_parser_inv.
Qed.

Lemma calibrate_parser_inv (self self' : MasterScheduleParser) (page : Page) :
  parser_inv self → _calibrate_day_columns self page = Ok self' → parser_inv self'.
Proof.
  intros (Hnd & Hcons & Hheap & Hcols). unfold _calibrate_day_columns.
  destruct (negb _); [by intros [= <-]|].
  intros (columns & Hlen%calibrate_length & [= <-])%bind_Ok.
  split; [done|]. split; [done|]. split; [done|]. simpl. lia.
Qed.

Lemma validate_loop_inv (self : MasterScheduleParser) (refs : list nat) (u : unit) :
  for_each (fun (_ : unit) ref =>
              class_info ← index (heap self) ref;
              validate class_info) refs tt = Ok u →
  ∀ ref, ref ∈ refs → ∃ r, heap self !! ref = Some r ∧ validate r = Ok tt.
Proof.
  induction refs as [|ref refs IH]; simpl; [by intros _ ? ?%elem_of_nil|].
  intros ([] & (r & Hr & Hval)%bind_Ok & Hrest)%bind_Ok.
  unfold index in Hr. destruct (heap self !! ref) as [o|] eqn:Href; [|done].
  injection Hr as ->.
  intros ref' [->|Hin]%elem_of_cons; [by exists r|by apply IH].
Qed.

Lemma result_loop_inv (self : MasterScheduleParser) (entries : list (string * nat))
    (acc res : list (string * ClassInfo)) :
  for_each (fun result '(class_id, ref) =>
              class_info ← index (heap self) ref;
              Ok (result ++ [(class_id, class_info)])) entries acc = Ok res →
  ∃ rest, res = acc ++ rest ∧ map fst rest = map fst entries ∧
          ∀ cid r, (cid, r) ∈ rest →
                   ∃ ref, (cid, ref) ∈ entries ∧ heap self !! ref = Some r.
Proof.
  revert acc. induction entries as [|[cid ref] entries IH]; intros acc; simpl.
  - intros [= <-]. exists []. rewrite app_nil_r. split; [done|]. split; [done|].
    by intros ?? ?%elem_of_nil.
  - intros (acc' & (r & Hr & [= <-])%bind_Ok & Hrest)%bind_Ok.
    unfold index in Hr. destruct (heap self !! ref) as [o|] eqn:Href; [|done].
    injection Hr as ->.
    destruct (IH _ Hrest) as (rest & -> & Hkeys & Hall).
    exists ((cid, r) :: rest). rewrite <-app_assoc. split; [done|].
    split; [simpl; by rewrite Hkeys|].
    intros cid' r' [[= -> ->]|Hin]%elem_of_cons.
    + exists ref. split; [left|done].
    + destruct (Hall cid' r' Hin) as (ref' & ? & ?). exists ref'. split; [by right|done].
Qed.

(** Whenever [parse] returns, the identifiers of the mapping are distinct,
    and every record is stored under its own identifier, is well formed
    (five weekdays, strictly ascending periods within 1..8) and has passed
    [validate]. *)
Theorem parse_returns_validated_records (pages : list Page)
    (result : list (string * ClassInfo)) :
  parse pages = Ok result →
  NoDup (map fst result) ∧
  Forall (fun '(cid, record) =>
            class_id record = cid ∧ well_formed record ∧ validate record = Ok tt)
         result.
Proof.
  unfold parse. intros (self & Hpages & (u & Hvalid & Hresult)%bind_Ok)%bind_Ok.
  assert (parser_inv self) as (Hnd & Hcons & Hheap & _).
  { revert Hpages. apply (for_each_preserves parser_inv).
    - intros s page s' Hs (s1 & Hcal & Hpage)%bind_Ok.
      eapply process_page_parser_inv; [|done].
      destruct (is_empty (DAY_COLUMNS s)); [|by injection Hcal as <-].
      by eapply calibrate_parser_inv.
    - split; [constructor|]. split; [by intros ?? ?%elem_of_nil|].
      split; [constructor|simpl; lia]. }
  unfold _validate_results in Hvalid.
  apply bind_Ok in Hvalid as (class_ids & _ & Hvalid).
  pose proof (validate_loop_inv _ _ _ Hvalid) as Hval.
  apply result_loop_inv in Hresult as (rest & -> & Hkeys & Hall). simpl.
  split; [by rewrite Hkeys|].
  apply Forall_forall. intros [cid r] Hin.
  destruct (Hall cid r Hin) as (ref & Hentry & Hr).
  destruct (Hcons cid ref Hentry) as (x & Hx & Hid).
  assert (x = r) as -> by congruence.
  split; [done|]. split.
  - rewrite Forall_forall in Hheap. eapply Hheap. by eapply list_elem_of_lookup_2.
  - destruct (Hval ref) as (y & Hy & Hok).
    { unfold dict_values. apply list_elem_of_fmap. by exists (cid, ref). }
    congruence.
Qed.

(** ** The further properties at sample inputs *)

Lemma add_conflicts_records_exactly_the_calls_witness :
  ∃ self', add_conflicts sample_calls sample_record = Ok self' ∧
           (∀ day p, p ∈ periods_of self' day ↔ (day, p) ∈ sample_calls) ∧
           _all_conflicts self' = list_to_set sample_calls.
Proof.
  apply (add_conflicts_records_exactly_the_calls "PK207" "Pre-K").
  - reflexivity.
  - exact sample_calls_valid.
Defined.

Lemma add_conflicts_order_irrelevant_witness :
  ∃ self', add_conflicts sample_calls sample_record = Ok self' ∧
           add_conflicts sample_calls_reordered sample_record = Ok self'.
Proof.
  apply (add_conflicts_order_irrelevant "PK207" "Pre-K").
  - reflexivity.
  - exact sample_calls_valid.
  - intros call. unfold sample_calls, sample_calls_reordered.
    rewrite !elem_of_cons, !elem_of_nil. tauto.
Defined.

Lemma to_dict_emits_exactly_the_calls_witness :
  ∃ self' d, add_conflicts sample_calls sample_record = Ok self' ∧
             to_dict self' = Ok d ∧
             classNumber d = "PK207" ∧ grade d = "Pre-K" ∧ active d = true ∧
             (∀ number p,
                {| dayOfWeek := number; period := p |} ∈ defaultConflicts d
                ↔ ∃ day, dict_get day DAY_MAP = Some number ∧
                         (day, p) ∈ sample_calls) ∧
             NoDup (defaultConflicts d).
Proof.
  apply (to_dict_emits_exactly_the_calls "PK207" "Pre-K").
  - reflexivity.
  - exact sample_calls_valid.
Defined.

Lemma to_dict_entries_in_range_witness :
  ∃ self' d, add_conflicts sample_calls sample_record = Ok self' ∧
             to_dict self' = Ok d ∧
             Forall (fun entry => 1 <= dayOfWeek entry <= 5 ∧
                                  1 <= period entry <= 8)
                    (defaultConflicts d).
Proof.
  apply (to_dict_entries_in_range "PK207" "Pre-K").
  - reflexivity.
  - exact sample_calls_valid.
Defined.

Lemma determine_grade_level_of_valid_id_witness :
  _determine_grade_level "K/1/2-123" ≠ "unknown".
Proof. apply determine_grade_level_of_valid_id. reflexivity. Defined.

Lemma detected_record_validates_witness :
  ∃ self', add_conflicts sample_calls sample_record = Ok self' ∧
           validate self' = Ok tt.
Proof.
  apply (detected_record_validates opening_line).
  - reflexivity.
  - reflexivity.
  - discriminate.
  - exact sample_calls_valid.
Defined.

Lemma multi_grade_components_decide_witness :
  grade_level multi_grade_record = "multiple" ∧
  (Forall (fun part => part ∈ ["K"; "1"; "2"; "3"; "4"; "5"]) ["0"; "1"; "2"] →
   expected_grade_of (class_id multi_grade_record)
   = Ok (Some (grade_level multi_grade_record))) ∧
  (¬ Forall (fun part => part ∈ ["K"; "1"; "2"; "3"; "4"; "5"]) ["0"; "1"; "2"] →
   ∀ other, class_id other = class_id multi_grade_record →
            validate other = Raise (ValidationError InvalidGradeInMultiple)).
Proof.
  apply (multi_grade_components_decide multi_grade_line multi_grade_record
           "0" "1" "2" "123").
  - reflexivity.
  - reflexivity.
Defined.

Lemma find_day_column_nearest_witness :
  ∃ col_x, FIXED_POSITIONS !! 1%nat = Some col_x ∧
           (distance 260 col_x < 100)%Q ∧
           (∀ j c, (j < 1)%nat → FIXED_POSITIONS !! j = Some c →
                   (distance 260 col_x < distance 260 c)%Q).
Proof. apply find_day_column_nearest. reflexivity. Defined.


Lemma extract_conflicts_never_raises_witness :
  ∃ class_info',
    _extract_conflicts FIXED_POSITIONS opening_line sample_record false
    = Ok class_info' ∧
    well_formed class_info' ∧
    class_id class_info' = class_id sample_record ∧
    grade_level class_info' = grade_level sample_record.
Proof.
  apply extract_conflicts_never_raises.
  - simpl. lia.
  - split; [reflexivity|]. simpl. repeat constructor.
Defined.

Lemma opening_line_as_continuation_witness :
  _extract_conflicts FIXED_POSITIONS opening_line sample_record false
  = _extract_conflicts FIXED_POSITIONS (drop 2 opening_line) sample_record true.
Proof. apply opening_line_as_continuation. simpl. lia. Defined.

Lemma calibrate_raises_iff_lone_monday_witness :
  _calibrate_day_columns MasterScheduleParser_init lone_monday_page = Raise IndexError
  ↔ IndexError = IndexError ∧
    ∃ pos, find_day_positions (extract_words lone_monday_page 3) = [("Monday", pos)].
Proof. apply calibrate_raises_iff_lone_monday. reflexivity. Defined.

Lemma calibrate_once_witness :
  length (DAY_COLUMNS calibrated_parser) = 5%nat ∧
  heap calibrated_parser = heap MasterScheduleParser_init ∧
  classes calibrated_parser = classes MasterScheduleParser_init ∧
  ∀ page', _calibrate_day_columns calibrated_parser page' = Ok calibrated_parser.
Proof.
  apply (calibrate_once MasterScheduleParser_init calibrated_parser first_page).
  - reflexivity.
  - reflexivity.
Defined.

Lemma calibrate_no_headers_fixed_witness :
  _calibrate_day_columns MasterScheduleParser_init second_page
  = Ok {| heap := []; classes := []; DAY_COLUMNS := FIXED_POSITIONS |}.
Proof.
  apply (calibrate_no_headers_fixed MasterScheduleParser_init second_page).
  - reflexivity.
  - simpl. repeat constructor.
Defined.

Lemma interpolation_evenly_spaced_witness :
  Forall2 Qeq
    (place_day [150%Q] ("Friday", 550%Q))
    ([150%Q]
       ++ evenly_spaced 150 ((550 - 150) / (inject_Z (Z.of_nat (4 - 1)) + 1))
                        (S (4 - 1))).
Proof.
  apply (interpolation_evenly_spaced [150%Q] "Friday" 550 150 4).
  - reflexivity.
  - reflexivity.
  - simpl. lia.
Defined.

Lemma backward_extrapolation_from_150_witness :
  Forall2 Qeq
    (place_day [] ("Wednesday", 400%Q))
    (150%Q :: evenly_spaced 150 ((400 - 150) / inject_Z (Z.of_nat 2)) 2).
Proof.
  apply backward_extrapolation_from_150.
  - reflexivity.
  - lia.
Defined.

Lemma forward_extrapolation_constant_step_witness :
  ∃ l', fill_remaining 5 ([] ++ [150%Q; 250%Q]) = Ok l' ∧
        Forall2 Qeq l'
          (([] ++ [150%Q; 250%Q])
             ++ evenly_spaced 250 (250 - 150)
                              (5 - length ([] ++ [150%Q; 250%Q]))).
Proof. apply forward_extrapolation_constant_step. simpl. lia. Defined.

Lemma parse_returns_validated_records_witness :
  NoDup (map fst scenario_result) ∧
  Forall (fun '(cid, record) =>
            class_id record = cid ∧ well_formed record ∧ validate record = Ok tt)
         scenario_result.
Proof.
  apply (parse_returns_validated_records [scenario_page]).
  vm_compute. reflexivity.
Defined.

(** ** The command line *)

Lemma parse_records_well_formed (pages : list Page)
    (result : list (string * ClassInfo)) :
  parse pages = Ok result →
  Forall (fun entry => class_id (snd entry) = fst entry ∧ well_formed (snd entry))
         result.
Proof.
  unfold parse. intros (self & Hpages & (u & _ & Hresult)%bind_Ok)%bind_Ok.
  assert (parser_inv self) as (_ & Hcons & Hheap & _).
  { revert Hpages. apply (for_each_preserves parser_inv).
    - intros s page s' Hs (s1 & Hcal & Hpage)%bind_Ok.
      eapply process_page_parser_inv; [|done].
      destruct (is_empty (DAY_COLUMNS s)); [|by injection Hcal as <-].
      by eapply calibrate_parser_inv.
    - split; [constructor|]. split; [by intros ?? ?%elem_of_nil|].
      split; [constructor|simpl; lia]. }
  apply result_loop_inv in Hresult as (rest & -> & _ & Hall). simpl.
  apply Forall_forall. intros [cid r] Hin. simpl.
  destruct (Hall cid r Hin) as (ref & Hentry & Hr).
  destruct (Hcons cid ref Hentry) as (x & Hx & Hid).
  assert (x = r) as -> by congruence. split; [done|].
  rewrite Forall_forall in Hheap. eapply Hheap. by eapply list_elem_of_lookup_2.
Qed.

Lemma serialize_well_formed (records : list ClassInfo) (acc : list ClassDict) :
  Forall well_formed records →
  for_each (fun result class_info =>
              d ← to_dict class_info;
              Ok (result ++ [d]))
           records acc
  = Ok (acc ++ map (fun r => {| classNumber := class_id r; grade := grade_level r;
                                defaultConflicts := conflicts_by_day r;
                                active := true |}) records).
Proof.
  intros Hwf. revert acc. induction Hwf as [|r records Hr _ IH]; intros acc; simpl.
  - by rewrite app_nil_r.
  - rewrite (to_dict_well_formed r Hr). simpl. rewrite IH. by rewrite <-app_assoc.
Qed.

(** After a successful [parse], serialization cannot fail: [main] exits
    with 0 and prints one entry per record, in the order of the mapping,
    whose [classNumber] is the record's key, whose [grade] is its grade
    and whose [defaultConflicts] are its conflicts day by day. *)
Theorem main_prints_every_record (pages : list Page)
    (classes : list (string * ClassInfo)) :
  parse pages = Ok classes →
  main pages
  = (0, Some (map (fun entry =>
                     {| classNumber := fst entry;
                        grade := grade_level (snd entry);
                        defaultConflicts := conflicts_by_day (snd entry);
                        active := true |})
                  classes)).
Proof.
  intros Hparse. pose proof (parse_records_well_formed _ _ Hparse) as Hrecords.
  unfold main, main_result. rewrite Hparse. simpl.
  rewrite serialize_well_formed.
  - simpl. do 2 f_equal. unfold dict_values. rewrite map_map.
    apply map_ext_Forall. eapply Forall_impl; [done|].
    intros [cid r] [Hid _]. simpl in *. by rewrite Hid.
  - unfold dict_values. apply Forall_map. eapply Forall_impl; [done|].
    by intros [cid r] [_ ?].
Qed.

(** [main] exits with 0 exactly when [parse] returns, and with 1 when
    [parse] raises; it never exits with another code. *)
Theorem main_exit_code (pages : list Page) :
  (fst (main pages) = 0 ↔ ∃ classes, parse pages = Ok classes) ∧
  (fst (main pages) = 1 ↔ ∃ e, parse pages = Raise e).
Proof.
  destruct (parse pages) as [classes|e] eqn:Hparse.
  - pose proof (parse_records_well_formed _ _ Hparse) as Hrecords.
    unfold main, main_result. rewrite Hparse. simpl.
    rewrite serialize_well_formed.
    + simpl. split; split; try done; [by eexists|by intros [? ?]].
    + unfold dict_values. apply Forall_map. eapply Forall_impl; [done|].
      by intros [cid r] [_ ?].
  - unfold main, main_result. rewrite Hparse. simpl.
    split; split; try done; [by intros [? ?]|by eexists].
Qed.

Lemma main_prints_every_record_witness :
  main [scenario_page]
  = (0, Some (map (fun entry =>
                     {| classNumber := fst entry;
                        grade := grade_level (snd entry);
                        defaultConflicts := conflicts_by_day (snd entry);
                        active := true |})
                  scenario_result)).
Proof.
  apply (main_prints_every_record [scenario_page]).
  vm_compute. reflexivity.
Defined.
